(** * aggro-db: connection manager, query route, upload route and control
      database, embedded from the TypeScript sources.

    The development follows the backend modules:
    - [JsString]: the string methods the code calls ([trim], [toLowerCase],
      [startsWith], [endsWith]);
    - [Js]: JSON-like runtime values, property access and [JSON.stringify]'s
      treatment of [undefined];
    - [DbManager]: [utils/db-manager] (class [DatabaseManager]);
    - [QueryRoute]: the query router's [post('/')] handler;
    - [MetadataModel]: [db/models/database-metadata.ts];
    - [AppDb]: [utils/app-db.ts];
    - [Upload]: the [POST /databases/upload] handler of the server entry
      point and the client's [DBUpload.onDrop].

    Strings are ASCII texts; timestamps and sizes are integers. *)

From Stdlib Require Import ZArith Lia Ascii String DecimalString.
From Stdlib.Strings Require Import Byte.
From stdpp Require Import base option list strings gmap.

Set Warnings "-register-all".

Local Open Scope string_scope.
Local Open Scope Z_scope.

(** ** Thrown values and results *)

(** A call either returns or throws; [Thrown] is what a [catch] clause
    receives. *)
Inductive Res (E A : Type) : Type :=
| Ok (a : A)
| Throw (e : E).
Arguments Ok {E A} a.
Arguments Throw {E A} e.

(** ** String methods *)

Module JsString.

(** White space removed by [String.prototype.trim], ASCII range:
    TAB, LF, VT, FF, CR and SPACE. *)
Definition is_space (c : ascii) : bool :=
  let n := nat_of_ascii c in
  (Nat.eqb n 32 || (Nat.leb 9 n && Nat.leb n 13))%bool.

Fixpoint trimStart (s : string) : string :=
  match s with
  | EmptyString => EmptyString
  | String c r => if is_space c then trimStart r else s
  end.

Fixpoint rev_append (s acc : string) : string :=
  match s with
  | EmptyString => acc
  | String c r => rev_append r (String c acc)
  end.

Definition rev (s : string) : string := rev_append s EmptyString.

Definition trimEnd (s : string) : string := rev (trimStart (rev s)).

Definition trim (s : string) : string := trimEnd (trimStart s).

Definition lower (c : ascii) : ascii :=
  let n := nat_of_ascii c in
  if (Nat.leb 65 n && Nat.leb n 90)%bool then ascii_of_nat (n + 32) else c.

Fixpoint toLowerCase (s : string) : string :=
  match s with
  | EmptyString => EmptyString
  | String c r => String (lower c) (toLowerCase r)
  end.

Fixpoint startsWith (s p : string) : bool :=
  match p, s with
  | EmptyString, _ => true
  | String _ _, EmptyString => false
  | String a p', String b s' => (Ascii.eqb a b && startsWith s' p')%bool
  end.

Definition endsWith (s p : string) : bool := startsWith (rev s) (rev p).

(** [String(n)] for an integer. *)
Definition of_Z (n : Z) : string := NilZero.string_of_int (Z.to_int n).

End JsString.

(** ** Runtime values *)

Module Js.

Inductive JsVal : Type :=
| JUndefined
| JNull
| JBool (b : bool)
| JNum (n : Z)
| JStr (s : string)
| JArr (items : list JsVal)
| JObj (props : list (string * JsVal)).

(** What a [throw] carries: an [Error] object with its message, or any
    other value. *)
Inductive Thrown : Type :=
| ErrorObj (message : string)
| NonError (v : JsVal).

(** [error instanceof Error ? error.message : 'Unknown error'] *)
Definition message_or_unknown (e : Thrown) : string :=
  match e with
  | ErrorObj m => m
  | NonError _ => "Unknown error"
  end.

Fixpoint assoc (k : string) (ps : list (string * JsVal)) : JsVal :=
  match ps with
  | [] => JUndefined
  | (k', v) :: r => if String.eqb k k' then v else assoc k r
  end.

(** [v.k]: reading a property of [undefined] or [null] throws a
    [TypeError]; a missing property reads as [undefined]. *)
Definition get_prop (v : JsVal) (k : string) : Res Thrown JsVal :=
  match v with
  | JUndefined => Throw (ErrorObj ("Cannot read properties of undefined (reading '" ++ k ++ "')"))
  | JNull => Throw (ErrorObj ("Cannot read properties of null (reading '" ++ k ++ "')"))
  | JObj ps => Ok (assoc k ps)
  | JArr items => if String.eqb k "length" then Ok (JNum (Z.of_nat (length items))) else Ok JUndefined
  | JStr s => if String.eqb k "length" then Ok (JNum (Z.of_nat (String.length s))) else Ok JUndefined
  | JBool _ | JNum _ => Ok JUndefined
  end.

(** The value a client reads back from [JSON.stringify]: object
    properties holding [undefined] are dropped, [undefined] array items
    become [null]. *)
Fixpoint to_json (v : JsVal) : JsVal :=
  match v with
  | JArr items =>
      JArr (map (fun x => match x with JUndefined => JNull | _ => to_json x end) items)
  | JObj ps =>
      JObj ((fix go (ps : list (string * JsVal)) : list (string * JsVal) :=
               match ps with
               | [] => []
               | (k, x) :: r =>
                   match x with
                   | JUndefined => go r
                   | _ => (k, to_json x) :: go r
                   end
               end) ps)
  | _ => v
  end.

(** [!v] *)
Definition falsy (v : JsVal) : bool :=
  match v with
  | JUndefined | JNull => true
  | JBool b => negb b
  | JNum n => Z.eqb n 0
  | JStr s => String.eqb s ""
  | JArr _ | JObj _ => false
  end.

Definition has_key (k : string) (v : JsVal) : bool :=
  match v with
  | JObj ps => existsb (fun p => String.eqb k (fst p)) ps
  | _ => false
  end.

End Js.

Export Js.

(** An HTTP reply built with [c.json(body, status)]. *)
Record Response : Type := mkResponse {
  status : Z;
  body : JsVal
}.

Definition json (b : JsVal) (st : Z) : Response :=
  {| status := st; body := to_json b |}.

(** ** The SQL engine, the file system and the clock *)

(** What the engine reports for one statement: the rows that [query]
    resolves to, and the engine's own counters, which [query] does not
    hand back. *)
Record EngineResult : Type := mkEngineResult {
  rows : list JsVal;
  changes : Z;
  lastInsertRowid : Z
}.

(** One call of the engine on a data file: how it ends, how long it took
    and what the file holds afterwards ([None]: no such file). The model
    takes a call to write no file but the one it runs on. *)
Record EngineReply : Type := mkEngineReply {
  outcome : Res Thrown EngineResult;
  elapsed_ms : Z;
  file_after : option (list byte)
}.

(** A connection pool returned by [createConnectionPool]. *)
Record Handle : Type := mkHandle {
  hid : nat;
  hpath : string
}.

(** A query value built by the [sql] template tag of the pool's driver:
    the statement text, with a [?] in the place of each interpolated
    value, and the values bound to them. *)
Record SQLQuery : Type := mkSQLQuery {
  query_text : string;
  query_values : list JsVal
}.

(** [sql`...`] without interpolation. *)
Definition sql_text (t : string) : SQLQuery :=
  {| query_text := t; query_values := [] |}.

(** [sql`${v}`]: the text is the single placeholder and [v] is bound to
    it. *)
Definition sql_value (v : JsVal) : SQLQuery :=
  {| query_text := "?"; query_values := [v] |}.

Inductive Event : Type :=
| EvOpen (h : Handle)
| EvDispose (h : Handle)
| EvQuery (h : Handle) (q : SQLQuery)
| EvUnlink (p : string).

Record World : Type := mkWorld {
  files : gmap string (list byte);
  open_pools : list Handle;
  next_handle : nat;
  clock : Z;
  trace : list Event
}.

Definition handle_eqb (a b : Handle) : bool :=
  (Nat.eqb (hid a) (hid b) && String.eqb (hpath a) (hpath b))%bool.

Definition log (e : Event) (w : World) : World :=
  {| files := files w; open_pools := open_pools w; next_handle := next_handle w;
     clock := clock w; trace := trace w ++ [e] |}.

Definition write_file (p : string) (c : option (list byte)) (w : World) : World :=
  {| files := match c with Some b => <[p := b]> (files w) | None => delete p (files w) end;
     open_pools := open_pools w; next_handle := next_handle w;
     clock := clock w; trace := trace w |}.

Definition tick (d : Z) (w : World) : World :=
  {| files := files w; open_pools := open_pools w; next_handle := next_handle w;
     clock := clock w + d; trace := trace w |}.

(** ** utils/db-manager: class DatabaseManager *)

Module DbManager.

Record DatabaseInfo : Type := mkDatabaseInfo {
  path : string;
  name : string;
  size : Z;
  tables : list JsVal;
  lastAccessed : Z
}.

(** The two private fields of the singleton. *)
Record Manager : Type := mkManager {
  currentDb : option Handle;
  currentDbInfo : option DatabaseInfo
}.

Definition initial : Manager := {| currentDb := None; currentDbInfo := None |}.

Definition no_database : Thrown := ErrorObj "No database currently loaded".

Definition tables_sql : string :=
  "SELECT name FROM sqlite_master WHERE type='table' AND name NOT LIKE 'sqlite_%'".

(** [createConnectionPool(`file:${filePath}`)] *)
Definition createConnectionPool (filePath : string) (w : World) : Handle * World :=
  let h := {| hid := next_handle w; hpath := filePath |} in
  (h, log (EvOpen h)
        {| files := files w; open_pools := open_pools w ++ [h];
           next_handle := S (next_handle w); clock := clock w; trace := trace w |}).

(** [pool.dispose()] *)
Definition dispose (h : Handle) (w : World) : World :=
  log (EvDispose h)
    {| files := files w;
       open_pools := List.filter (fun h' => negb (handle_eqb h h')) (open_pools w);
       next_handle := next_handle w; clock := clock w; trace := trace w |}.

(** [unlink(filePath)] *)
Definition unlink (p : string) (w : World) : World :=
  log (EvUnlink p) (write_file p None w).

Section WithEngine.

(** The pool's driver, running a query value on a data file. *)
Variable engine : option (list byte) -> SQLQuery -> EngineReply.

(** [pool.query(q)] *)
Definition query (h : Handle) (q : SQLQuery) (w : World)
  : Res Thrown EngineResult * World :=
  let r := engine (files w !! hpath h) q in
  (outcome r, tick (elapsed_ms r) (write_file (hpath h) (file_after r) (log (EvQuery h q) w))).

Definition closeCurrentDatabase (m : Manager) (w : World) : Manager * World :=
  match currentDb m with
  | Some h => ({| currentDb := None; currentDbInfo := None |}, dispose h w)
  | None => (m, w)
  end.

(** The [catch] clause of [loadDatabase]. *)
Definition loadDatabase_cleanup (filePath : string) (w : World) : World :=
  match files w !! filePath with
  | Some _ => unlink filePath w
  | None => w
  end.

(** [results.map(r => r.name as string)] *)
Fixpoint names (rs : list JsVal) : Res Thrown (list JsVal) :=
  match rs with
  | [] => Ok []
  | r :: rest =>
      match get_prop r "name" with
      | Throw e => Throw e
      | Ok n =>
          match names rest with
          | Throw e => Throw e
          | Ok ns => Ok (n :: ns)
          end
      end
  end.

Definition loadDatabase (filePath originalName : string) (m : Manager) (w : World)
  : Res Thrown DatabaseInfo * Manager * World :=
  let '(m1, w1) := closeCurrentDatabase m w in
  let '(h, w2) := createConnectionPool filePath w1 in
  let m2 := {| currentDb := Some h; currentDbInfo := currentDbInfo m1 |} in
  let '(r, w3) := query h (sql_text tables_sql) w2 in
  match r with
  | Throw e => (Throw e, m2, loadDatabase_cleanup filePath w3)
  | Ok res =>
      match names (rows res) with
      | Throw e => (Throw e, m2, loadDatabase_cleanup filePath w3)
      | Ok tbls =>
          match files w3 !! filePath with
          | None =>
              (Throw (ErrorObj ("ENOENT: no such file or directory, stat '" ++ filePath ++ "'")),
               m2, loadDatabase_cleanup filePath w3)
          | Some bytes =>
              let info := {| path := filePath; name := originalName;
                             size := Z.of_nat (length bytes); tables := tbls;
                             lastAccessed := clock w3 |} in
              (Ok info, {| currentDb := Some h; currentDbInfo := Some info |}, w3)
          end
      end
  end.

Definition getCurrentDatabase (m : Manager) : Res Thrown Handle :=
  match currentDb m with
  | None => Throw no_database
  | Some h => Ok h
  end.

Definition getCurrentDatabaseInfo (m : Manager) : Res Thrown DatabaseInfo :=
  match currentDbInfo m with
  | None => Throw no_database
  | Some i => Ok i
  end.

Definition isConnected (m : Manager) : bool :=
  match currentDb m with
  | None => false
  | Some _ => true
  end.

(** [sqlQuery.trim().toLowerCase().startsWith('select')] *)
Definition isSelect (sqlQuery : string) : bool :=
  JsString.startsWith (JsString.toLowerCase (JsString.trim sqlQuery)) "select".

(** The statement is handed to the driver as [sql`${sqlQuery}`]: an
    interpolated value, not statement text. *)
Definition executeQuery (sqlQuery : string) (m : Manager) (w : World)
  : Res Thrown JsVal * World :=
  match currentDb m with
  | None => (Throw no_database, w)
  | Some h =>
      let sel := isSelect sqlQuery in
      let '(r, w') := query h (sql_value (JStr sqlQuery)) w in
      match r with
      | Throw e => (Throw e, w')
      | Ok res =>
          let result := JArr (rows res) in
          (Ok (if sel then result else JObj [("changes", result)]), w')
      end
  end.

(** States the singleton can be in: from [initial], any sequence of
    [loadDatabase] and [closeCurrentDatabase] calls. *)
Inductive reachable : Manager -> World -> Prop :=
| reach_init w :
    open_pools w = [] -> reachable initial w
| reach_load m w filePath originalName :
    reachable m w ->
    reachable (loadDatabase filePath originalName m w).1.2
              (loadDatabase filePath originalName m w).2
| reach_close m w :
    reachable m w ->
    reachable (closeCurrentDatabase m w).1 (closeCurrentDatabase m w).2
| reach_query m w sql :
    reachable m w ->
    reachable m (executeQuery sql m w).2.

End WithEngine.

(** The pools not yet disposed are exactly the one the manager holds,
    handles are never reused, and a summary is cached only together with
    a handle. *)
Definition coherent (m : Manager) (w : World) : Prop :=
  open_pools w = match currentDb m with Some h => [h] | None => [] end /\
  Forall (fun h => (hid h < next_handle w)%nat) (open_pools w) /\
  (currentDb m = None -> currentDbInfo m = None).

End DbManager.

(** ** The query router: POST / *)

Module QueryRoute.

Import DbManager.

Record QueryHistoryEntry : Type := mkEntry {
  query : string;
  database_name : string;
  database_path : string;
  executed_at : Z;
  execution_time_ms : Z;
  success : bool;
  error_message : option string;
  results_path : option string
}.

(** The object literal handed to [QueriesModel.addToHistory]. *)
Record HistoryInput : Type := mkInput {
  in_query : string;
  in_database_name : string;
  in_database_path : string;
  in_execution_time_ms : Z;
  in_success : bool;
  in_error_message : option string;
  in_results : option JsVal
}.

Section WithEngine.

Variable engine : option (list byte) -> SQLQuery -> EngineReply.

(** Where the model archives a result set ([None]: nothing archived). *)
Variable archive : JsVal -> option string.

(** Modelled from the spec: [QueriesModel.addToHistory] ([db/models] is
    not among the sources). The history recorder "appends one immutable
    QueryHistoryEntry per executed query, for both success and failure
    paths"; [executed_at] is the time of the write and the result set,
    when given, goes to [results_path]. *)
Definition addToHistory (i : HistoryInput) (w : World)
    (history : list QueryHistoryEntry) : list QueryHistoryEntry :=
  history ++
  [ {| query := in_query i;
       database_name := in_database_name i;
       database_path := in_database_path i;
       executed_at := clock w;
       execution_time_ms := in_execution_time_ms i;
       success := in_success i;
       error_message := in_error_message i;
       results_path := match in_results i with
                       | Some r => archive r
                       | None => None
                       end |} ].

(** The body of the inner [try]. *)
Definition attempt (sql : string) (startTime : Z) (m : Manager) (w : World)
    (history : list QueryHistoryEntry)
  : Res Thrown Response * World * list QueryHistoryEntry :=
  match getCurrentDatabaseInfo m with
  | Throw e => (Throw e, w, history)
  | Ok dbInfo =>
      let '(r, w1) := executeQuery engine sql m w in
      match r with
      | Throw e => (Throw e, w1, history)
      | Ok results =>
          let history1 :=
            addToHistory
              {| in_query := sql;
                 in_database_name := name dbInfo;
                 in_database_path := path dbInfo;
                 in_execution_time_ms := clock w1 - startTime;
                 in_success := true;
                 in_error_message := None;
                 in_results := Some results |} w1 history in
          if isSelect sql then
            (Ok (json (JObj [("results", results)]) 200), w1, history1)
          else
            match get_prop results "changes" with
            | Throw e => (Throw e, w1, history1)
            | Ok ch =>
                match get_prop results "lastInsertRowid" with
                | Throw e => (Throw e, w1, history1)
                | Ok li =>
                    (Ok (json (JObj [("changes", ch); ("lastInsertId", li)]) 200),
                     w1, history1)
                end
            end
      end
  end.

(** The inner [try { ... } catch (error) { ...; throw error }]. *)
Definition run_and_record (sql : string) (startTime : Z) (m : Manager) (w : World)
    (history : list QueryHistoryEntry)
  : Res Thrown Response * World * list QueryHistoryEntry :=
  match attempt sql startTime m w history with
  | (Ok resp, w', h') => (Ok resp, w', h')
  | (Throw e, w', h') =>
      let errorMessage := message_or_unknown e in
      match getCurrentDatabaseInfo m with
      | Throw e2 => (Throw e2, w', h')
      | Ok dbInfo =>
          (Throw e, w',
           addToHistory
             {| in_query := sql;
                in_database_name := name dbInfo;
                in_database_path := path dbInfo;
                in_execution_time_ms := clock w' - startTime;
                in_success := false;
                in_error_message := Some errorMessage;
                in_results := None |} w' h')
      end
  end.

(** The handler. [sql] is the [sql] member of the JSON body when it is
    a string, [None] when the body has none. *)
Definition post (sql : option string) (m : Manager) (w : World)
    (history : list QueryHistoryEntry)
  : Response * World * list QueryHistoryEntry :=
  if negb (isConnected m) then
    (json (JObj [("error", JStr "No database loaded")]) 400, w, history)
  else
    match sql with
    | None => (json (JObj [("error", JStr "No SQL query provided")]) 400, w, history)
    | Some q =>
        if String.eqb q "" then
          (json (JObj [("error", JStr "No SQL query provided")]) 400, w, history)
        else
          let startTime := clock w in
          match run_and_record q startTime m w history with
          | (Ok resp, w', h') => (resp, w', h')
          | (Throw e, w', h') =>
              (json (JObj [("error", JStr "Failed to execute query");
                           ("details", JStr (message_or_unknown e))]) 500, w', h')
          end
    end.

End WithEngine.

End QueryRoute.

(** ** db/models/database-metadata.ts over db/schema.sql *)

Module MetadataModel.

(** A row of [database_metadata]; [is_favorite] is stored as 0 or 1. *)
Record DatabaseMetadata : Type := mkMetadata {
  id : Z;
  name : string;
  path : string;
  size : Z;
  table_count : Z;
  last_accessed : Z;
  is_favorite : Z;
  notes : option string;
  schema_cache : option string;
  schema_updated_at : option string;
  created_at : Z
}.

(** [Omit<DatabaseMetadata, 'id' | 'last_accessed' | 'created_at'>] *)
Record NewMetadata : Type := mkNew {
  new_name : string;
  new_path : string;
  new_size : Z;
  new_table_count : Z;
  new_is_favorite : bool;
  new_notes : option string;
  new_schema_cache : option string;
  new_schema_updated_at : option string
}.

(** The table with its AUTOINCREMENT counter. *)
Record Table : Type := mkTable {
  table_rows : list DatabaseMetadata;
  table_seq : Z
}.

(** The connection: the table as this connection sees it, and the
    snapshot to restore while a transaction is pending. *)
Record Db : Type := mkDb {
  live : Table;
  pending : option Table
}.

Inductive Stmt : Type := BEGIN_IMMEDIATE | COMMIT | ROLLBACK.

(** [this.db.exec(...)] for the three transaction statements. *)
Definition exec (s : Stmt) (d : Db) : Res Thrown unit * Db :=
  match s, pending d with
  | BEGIN_IMMEDIATE, None => (Ok tt, {| live := live d; pending := Some (live d) |})
  | BEGIN_IMMEDIATE, Some _ =>
      (Throw (ErrorObj "cannot start a transaction within a transaction"), d)
  | COMMIT, Some _ => (Ok tt, {| live := live d; pending := None |})
  | COMMIT, None => (Throw (ErrorObj "cannot commit - no transaction is active"), d)
  | ROLLBACK, Some t => (Ok tt, {| live := t; pending := None |})
  | ROLLBACK, None => (Throw (ErrorObj "cannot rollback - no transaction is active"), d)
  end.

(** [x || null] on an optional string. *)
Definition or_null (x : option string) : option string :=
  match x with
  | Some s => if String.eqb s "" then None else Some s
  | None => None
  end.

Definition has_path (p : string) (t : Table) : bool :=
  existsb (fun r => String.eqb (path r) p) (table_rows t).

(** The row an INSERT of [n] stores under id [i]: [last_accessed] and
    [created_at] default to CURRENT_TIMESTAMP. *)
Definition new_row (n : NewMetadata) (now i : Z) : DatabaseMetadata :=
  {| id := i;
     name := new_name n;
     path := new_path n;
     size := new_size n;
     table_count := new_table_count n;
     last_accessed := now;
     is_favorite := if new_is_favorite n then 1 else 0;
     notes := or_null (new_notes n);
     schema_cache := or_null (new_schema_cache n);
     schema_updated_at := or_null (new_schema_updated_at n);
     created_at := now |}.

Definition add_row (r : DatabaseMetadata) (t : Table) : Table :=
  {| table_rows := table_rows t ++ [r]; table_seq := id r |}.

(** [INSERT INTO database_metadata (...) VALUES (...) RETURNING id]:
    [path] is UNIQUE, the id comes from the AUTOINCREMENT counter. *)
Definition insert (n : NewMetadata) (now : Z) (d : Db) : Res Thrown Z * Db :=
  if has_path (new_path n) (live d) then
    (Throw (ErrorObj "UNIQUE constraint failed: database_metadata.path"), d)
  else
    let i := table_seq (live d) + 1 in
    (Ok i, {| live := add_row (new_row n now i) (live d); pending := pending d |}).

(** [SELECT ... FROM database_metadata WHERE id = ?] with [stmt.get]. *)
Definition select_by_id (i : Z) (d : Db) : option DatabaseMetadata :=
  find (fun r => Z.eqb (id r) i) (table_rows (live d)).

(** [SELECT ... FROM database_metadata WHERE path = ?] with [stmt.get]. *)
Definition select_by_path (p : string) (d : Db) : option DatabaseMetadata :=
  find (fun r => String.eqb (path r) p) (table_rows (live d)).

Definition findById (i : Z) (d : Db) : option DatabaseMetadata := select_by_id i d.

Definition findByPath (p : string) (d : Db) : option DatabaseMetadata := select_by_path p d.

(** The [try] block of [create]. The test on [result.id] cannot fail
    once the INSERT has returned. *)
Definition create_body (n : NewMetadata) (now : Z) (d : Db)
  : Res Thrown DatabaseMetadata * Db :=
  match exec BEGIN_IMMEDIATE d with
  | (Throw e, d1) => (Throw e, d1)
  | (Ok _, d1) =>
      match insert n now d1 with
      | (Throw e, d2) => (Throw e, d2)
      | (Ok i, d2) =>
          match select_by_id i d2 with
          | None =>
              (Throw (ErrorObj ("Failed to retrieve inserted record with ID " ++ JsString.of_Z i)), d2)
          | Some record =>
              match exec COMMIT d2 with
              | (Throw e, d3) => (Throw e, d3)
              | (Ok _, d3) => (Ok record, d3)
              end
          end
      end
  end.

Definition create (n : NewMetadata) (now : Z) (d : Db)
  : Res Thrown DatabaseMetadata * Db :=
  match create_body n now d with
  | (Ok record, d') => (Ok record, d')
  | (Throw e, d') =>
      match exec ROLLBACK d' with
      | (Throw e2, d'') => (Throw e2, d'')
      | (Ok _, d'') => (Throw e, d'')
      end
  end.

Definition opt_str (x : option string) : JsVal :=
  match x with
  | Some s => JStr s
  | None => JNull
  end.

(** The record as the handlers put it in a JSON body. *)
Definition to_js (r : DatabaseMetadata) : JsVal :=
  JObj [("id", JNum (id r)); ("name", JStr (name r)); ("path", JStr (path r));
        ("size", JNum (size r)); ("table_count", JNum (table_count r));
        ("last_accessed", JNum (last_accessed r));
        ("is_favorite", JNum (is_favorite r)); ("notes", opt_str (notes r));
        ("schema_cache", opt_str (schema_cache r));
        ("schema_updated_at", opt_str (schema_updated_at r));
        ("created_at", JNum (created_at r))].

(** What the schema guarantees between calls: no transaction pending,
    ids handed out so far are at most the counter, paths are unique. *)
Definition consistent (d : Db) : Prop :=
  pending d = None /\
  Forall (fun r => id r <= table_seq (live d)) (table_rows (live d)) /\
  NoDup (map path (table_rows (live d))).

Definition empty : Db := {| live := {| table_rows := []; table_seq := 0 |}; pending := None |}.

End MetadataModel.

(** ** utils/app-db.ts *)

Module AppDb.

Record UserPreference : Type := mkPref {
  id : Z;
  key : string;
  value : string;
  updated_at : Z
}.

(** A row of this module's [database_metadata] table; [is_favorite] and
    [notes] may be NULL. *)
Record MetadataRow : Type := mkRow {
  row_id : Z;
  name : string;
  path : string;
  size : Z;
  table_count : Z;
  last_accessed : Z;
  is_favorite : option bool;
  notes : option string
}.

(** The argument of [updateDatabaseMetadata]; an omitted optional field
    is bound as NULL. *)
Record MetadataInput : Type := mkMetaInput {
  in_name : string;
  in_path : string;
  in_size : Z;
  in_table_count : Z;
  in_is_favorite : option bool;
  in_notes : option string
}.

Record AppDatabase : Type := mkApp {
  user_preferences : list UserPreference;
  user_preferences_seq : Z;
  database_metadata : list MetadataRow;
  database_metadata_seq : Z
}.

Definition empty : AppDatabase :=
  {| user_preferences := []; user_preferences_seq := 0;
     database_metadata := []; database_metadata_seq := 0 |}.

Definition has_key (k : string) (db : AppDatabase) : bool :=
  existsb (fun r => String.eqb (key r) k) (user_preferences db).

(** [DO UPDATE SET value = v, updated_at = CURRENT_TIMESTAMP] on the row
    in conflict. *)
Definition overwrite (k v : string) (now : Z) (r : UserPreference) : UserPreference :=
  if String.eqb (key r) k
  then {| id := id r; key := key r; value := v; updated_at := now |}
  else r.

(** [INSERT INTO user_preferences (key, value) VALUES (k, v)
     ON CONFLICT(key) DO UPDATE SET value = v, updated_at = CURRENT_TIMESTAMP].
    The INSERT draws its id from the AUTOINCREMENT counter before the
    conflict is met, so the counter advances on the update as well. *)
Definition setPreference (k v : string) (now : Z) (db : AppDatabase) : AppDatabase :=
  if has_key k db then
    {| user_preferences := map (overwrite k v now) (user_preferences db);
       user_preferences_seq := user_preferences_seq db + 1;
       database_metadata := database_metadata db;
       database_metadata_seq := database_metadata_seq db |}
  else
    let i := user_preferences_seq db + 1 in
    {| user_preferences :=
         user_preferences db ++ [ {| id := i; key := k; value := v; updated_at := now |} ];
       user_preferences_seq := i;
       database_metadata := database_metadata db;
       database_metadata_seq := database_metadata_seq db |}.

(** The rows [SELECT ... FROM user_preferences WHERE key = k] returns. *)
Definition rows_for (k : string) (db : AppDatabase) : list UserPreference :=
  List.filter (fun r => String.eqb (key r) k) (user_preferences db).

(** [SELECT value FROM user_preferences WHERE key = k], then
    [result[0]?.value ?? null]. *)
Definition getPreference (k : string) (db : AppDatabase) : option string :=
  match rows_for k db with
  | r :: _ => Some (value r)
  | [] => None
  end.

(** [COALESCE(a, b)] *)
Definition coalesce {A : Type} (a b : option A) : option A :=
  match a with
  | Some _ => a
  | None => b
  end.

Definition has_path (p : string) (db : AppDatabase) : bool :=
  existsb (fun r => String.eqb (path r) p) (database_metadata db).

(** [DO UPDATE SET name, size, table_count,
     is_favorite = COALESCE(?, is_favorite), notes = COALESCE(?, notes),
     last_accessed = CURRENT_TIMESTAMP] on the row in conflict. *)
Definition refresh (i : MetadataInput) (now : Z) (r : MetadataRow) : MetadataRow :=
  if String.eqb (path r) (in_path i)
  then {| row_id := row_id r;
          name := in_name i;
          path := path r;
          size := in_size i;
          table_count := in_table_count i;
          last_accessed := now;
          is_favorite := coalesce (in_is_favorite i) (is_favorite r);
          notes := coalesce (in_notes i) (notes r) |}
  else r.

(** [INSERT INTO database_metadata (...) VALUES (...)
     ON CONFLICT(path) DO UPDATE SET ...]. As in [setPreference], the
    counter advances on the update as well. *)
Definition updateDatabaseMetadata (i : MetadataInput) (now : Z) (db : AppDatabase)
  : AppDatabase :=
  if has_path (in_path i) db then
    {| user_preferences := user_preferences db;
       user_preferences_seq := user_preferences_seq db;
       database_metadata := map (refresh i now) (database_metadata db);
       database_metadata_seq := database_metadata_seq db + 1 |}
  else
    let n := database_metadata_seq db + 1 in
    {| user_preferences := user_preferences db;
       user_preferences_seq := user_preferences_seq db;
       database_metadata :=
         database_metadata db ++
         [ {| row_id := n;
              name := in_name i;
              path := in_path i;
              size := in_size i;
              table_count := in_table_count i;
              last_accessed := now;
              is_favorite := in_is_favorite i;
              notes := in_notes i |} ];
       database_metadata_seq := n |}.

Definition row_for (p : string) (db : AppDatabase) : option MetadataRow :=
  find (fun r => String.eqb (path r) p) (database_metadata db).

(** The UNIQUE constraints of the two tables. *)
Definition unique_keys (db : AppDatabase) : Prop :=
  NoDup (map key (user_preferences db)).

Definition unique_paths (db : AppDatabase) : Prop :=
  NoDup (map path (database_metadata db)).

End AppDb.

(** ** POST /databases/upload and the client's drop zone *)

Module Upload.

Import MetadataModel.

(** A [File] of the form data: its name and its bytes. *)
Record File : Type := mkFile {
  file_name : string;
  file_bytes : list byte
}.

Definition catalog_sql : string := "SELECT name FROM sqlite_master WHERE type='table'".

(** [path.join(dir, name)] for a name without separators. *)
Definition join (dir name : string) : string := dir ++ "/" ++ name.

Section Server.

Variable engine : option (list byte) -> string -> EngineReply.

(** [dbConnection.getStoragePath('databases')] *)
Variable storageDir : string.

(** [new Date(t).toLocaleString()] *)
Variable toLocaleString : Z -> string.

(** [new Database(p)], [db.query(sql).all()], [db.close()]. *)
Definition all (p sql : string) (w : World) : Res Thrown (list JsVal) * World :=
  let r := engine (files w !! p) sql in
  (match outcome r with
   | Ok res => Ok (rows res)
   | Throw e => Throw e
   end,
   tick (elapsed_ms r) (write_file p (file_after r) w)).

Definition storagePath_of (f : File) (w : World) : string :=
  join storageDir (JsString.of_Z (clock w) ++ "-" ++ file_name f).

(** The [catch] clause: the stored file is emptied, not removed. ([create]
    returns a record or throws, so the route's test on [database] cannot
    fail and is left out.) *)
Definition upload_failed (storagePath : string) (e : Thrown) (w : World) (d : Db)
  : Response * World * Db :=
  (json (JObj [("error", JStr "Failed to upload database");
               ("details", JStr (message_or_unknown e))]) 500,
   write_file storagePath (Some []) w, d).

Definition upload (file : option File) (w : World) (d : Db) : Response * World * Db :=
  match file with
  | None => (json (JObj [("error", JStr "No file provided")]) 400, w, d)
  | Some f =>
      let storagePath := storagePath_of f w in
      let w1 := write_file storagePath (Some (file_bytes f)) w in
      match files w1 !! storagePath with
      | None =>
          upload_failed storagePath
            (ErrorObj ("ENOENT: no such file or directory, stat '" ++ storagePath ++ "'")) w1 d
      | Some stored =>
          let '(r, w2) := all storagePath catalog_sql w1 in
          match r with
          | Throw e => upload_failed storagePath e w2 d
          | Ok tbls =>
              let tableCount := Z.of_nat (length tbls) in
              match create {| new_name := file_name f;
                              new_path := storagePath;
                              new_size := Z.of_nat (length stored);
                              new_table_count := tableCount;
                              new_is_favorite := false;
                              new_notes := Some ("Uploaded on " ++ toLocaleString (clock w2));
                              new_schema_cache := None;
                              new_schema_updated_at := None |} (clock w2) d with
              | (Throw e, d') => upload_failed storagePath e w2 d'
              | (Ok database, d') =>
                  (json (JObj [("database", to_js database)]) 200, w2, d')
              end
          end
      end
  end.

End Server.

(** *** components/db-upload.tsx *)

Inductive UiEvent : Type :=
| SetIsUploading (b : bool)
| FileSelected (f : File)
| Toast (title description variant : string).

Section Client.

(** The [onFileSelect] prop: what the parent does with the file. *)
Variable onFileSelect : File -> Res Thrown unit.

Definition has_db_extension (f : File) : bool := JsString.endsWith (file_name f) ".db".

Definition invalid_file_toast : UiEvent :=
  Toast "Error" "Please upload a valid SQLite database file (.db)" "destructive".

Definition onDrop (acceptedFiles : list File) : list UiEvent :=
  match acceptedFiles with
  | f :: _ =>
      if has_db_extension f then
        [SetIsUploading true; FileSelected f] ++
        match onFileSelect f with
        | Ok _ => []
        | Throw e =>
            [Toast "Error"
               match e with
               | ErrorObj m => m
               | NonError _ => "Failed to process database file"
               end
               "destructive"]
        end ++
        [SetIsUploading false]
      else [invalid_file_toast]
  | [] => [invalid_file_toast]
  end.

Definition selected (evs : list UiEvent) : list File :=
  omap (fun e => match e with FileSelected f => Some f | _ => None end) evs.

End Client.

End Upload.

(** ** A small engine and sample files, for running the model *)

Module Sample.

(** The 16-byte header of a database file, [SQLite format 3] and NUL. *)
Definition header : list byte :=
  [x53; x51; x4c; x69; x74; x65; x20; x66; x6f; x72; x6d; x61; x74; x20; x33; x00].

Fixpoint has_prefix (p b : list byte) : bool :=
  match p, b with
  | [], _ => true
  | _ :: _, [] => false
  | x :: p', y :: b' => (Byte.eqb x y && has_prefix p' b')%bool
  end.

(** An engine that knows three kinds of statement: a file without the
    header is rejected; [select] statements return no rows, [insert]
    statements report one changed row, anything else is a syntax
    error. Every call takes 7 ms. *)
Definition engine (content : option (list byte)) (sql : string) : EngineReply :=
  let reply o := {| outcome := o; elapsed_ms := 7; file_after := content |} in
  match content with
  | None => reply (Throw (ErrorObj "SQLITE_CANTOPEN: unable to open database file"))
  | Some b =>
      if negb (has_prefix header b) then
        reply (Throw (ErrorObj "SQLITE_NOTADB: file is not a database"))
      else if JsString.startsWith (JsString.toLowerCase (JsString.trim sql)) "select" then
        reply (Ok {| rows := []; changes := 0; lastInsertRowid := 0 |})
      else if JsString.startsWith (JsString.toLowerCase (JsString.trim sql)) "insert" then
        reply (Ok {| rows := []; changes := 1; lastInsertRowid := 41 |})
      else
        reply (Throw (ErrorObj "SQLITE_ERROR: syntax error"))
  end.

Definition archive (_ : JsVal) : option string := None.

Definition toLocaleString (t : Z) : string := JsString.of_Z t.

Definition storageDir : string := "/srv/storage/databases".

(** A world with one valid data file and one text file. *)
Definition world : World :=
  {| files := {[ "/data/a.db" := header; "/data/b.db" := (header ++ [x00; x01])%list;
                 "/data/notes.txt" := [x68; x69] ]};
     open_pools := []; next_handle := 0; clock := 1000; trace := [] |}.

(** The pool's driver over the same engine: the statement run is the
    query's text, so a lone placeholder is a syntax error. *)
Definition pool (content : option (list byte)) (q : SQLQuery) : EngineReply :=
  engine content (query_text q).

Definition opened := DbManager.loadDatabase pool "/data/a.db" "a.db" DbManager.initial world.

(** A valid database uploaded under a name without the [.db] ending. *)
Definition text_named : Upload.File :=
  {| Upload.file_name := "notes.txt"; Upload.file_bytes := header |}.

Definition onFileSelect (_ : Upload.File) : Res Thrown unit := Ok tt.

(** The same name uploaded twice within one millisecond. *)
Definition db_named : Upload.File :=
  {| Upload.file_name := "a.db"; Upload.file_bytes := header |}.

Definition db_named_again : Upload.File :=
  {| Upload.file_name := "a.db"; Upload.file_bytes := (header ++ [x00; x01])%list |}.

Definition registration : MetadataModel.NewMetadata :=
  {| MetadataModel.new_name := "a.db";
     MetadataModel.new_path := "/srv/storage/databases/1000-a.db";
     MetadataModel.new_size := 16;
     MetadataModel.new_table_count := 0;
     MetadataModel.new_is_favorite := false;
     MetadataModel.new_notes := Some "Uploaded on 1007";
     MetadataModel.new_schema_cache := None;
     MetadataModel.new_schema_updated_at := None |}.

Definition registration_again : MetadataModel.NewMetadata :=
  {| MetadataModel.new_name := "a.db";
     MetadataModel.new_path := "/srv/storage/databases/1000-a.db";
     MetadataModel.new_size := 4096;
     MetadataModel.new_table_count := 3;
     MetadataModel.new_is_favorite := false;
     MetadataModel.new_notes := Some "Uploaded on 2000";
     MetadataModel.new_schema_cache := None;
     MetadataModel.new_schema_updated_at := None |}.

Definition registered : MetadataModel.Db :=
  (MetadataModel.create registration 1007 MetadataModel.empty).2.

Definition upsert_input : AppDb.MetadataInput :=
  {| AppDb.in_name := "a.db"; AppDb.in_path := "/srv/storage/databases/1000-a.db";
     AppDb.in_size := 16; AppDb.in_table_count := 0;
     AppDb.in_is_favorite := None; AppDb.in_notes := None |}.

End Sample.

(** ** More of the model: the remaining operations of the cited modules *)

From Stdlib Require Import DecimalPos DecimalZ.
From stdpp Require Import sorting.

Local Open Scope string_scope.
Local Open Scope Z_scope.

(** ** ORDER BY ... DESC *)

(** The rows of a table scan put in decreasing order of an integer
    column. Rows with equal keys stay in scan order, which is how SQLite's
    sorter leaves them. *)
Section OrderBy.

Context {A : Type} (key : A -> Z).

(** [x], scanned before the rows of [l], takes its place in front of the
    first row whose key is not above its own. *)
Fixpoint insert_desc (x : A) (l : list A) : list A :=
  match l with
  | [] => [x]
  | y :: rest => if Z.leb (key y) (key x) then x :: l else y :: insert_desc x rest
  end.

Definition order_by_desc (l : list A) : list A := foldr insert_desc [] l.

End OrderBy.

(** ** db/models/database-metadata.ts, the remaining methods *)

Module MetadataQueries.

Import MetadataModel.

(** [Partial<DatabaseMetadata>]: a member is [None] when its key is
    absent. A present member holds its value, or [None] when it holds
    [undefined] (bound as NULL); [is_favorite], when present, holds a
    boolean. *)
Record Partial : Type := mkPartial {
  p_id : option Z;
  p_name : option (option string);
  p_path : option (option string);
  p_size : option (option Z);
  p_table_count : option (option Z);
  p_last_accessed : option Z;
  p_is_favorite : option bool;
  p_notes : option (option string);
  p_schema_cache : option (option string);
  p_schema_updated_at : option (option string);
  p_created_at : option Z
}.

Definition present {A : Type} (x : option A) : bool :=
  match x with
  | Some _ => true
  | None => false
  end.

(** The entries left after the filter on [id], [last_accessed] and
    [created_at]: is the SET list empty? *)
Definition no_updates (p : Partial) : bool :=
  negb (present (p_name p) || present (p_path p) || present (p_size p) ||
        present (p_table_count p) || present (p_is_favorite p) || present (p_notes p) ||
        present (p_schema_cache p) || present (p_schema_updated_at p)).

(** [col = ?] on a NOT NULL column: [None] when NULL is bound. *)
Definition assign {A : Type} (x : option (option A)) (old : A) : option A :=
  match x with
  | None => Some old
  | Some v => v
  end.

(** [col = ?] on a nullable column. *)
Definition assign_null {A : Type} (x : option (option A)) (old : option A) : option A :=
  match x with
  | None => old
  | Some v => v
  end.

(** The row after [SET ..., last_accessed = CURRENT_TIMESTAMP]; [None]
    when a NOT NULL constraint fails. *)
Definition updated_row (p : Partial) (now : Z) (r : DatabaseMetadata)
  : option DatabaseMetadata :=
  match assign (p_name p) (name r), assign (p_path p) (path r),
        assign (p_size p) (size r), assign (p_table_count p) (table_count r) with
  | Some n, Some q, Some s, Some t =>
      Some {| id := id r;
              name := n;
              path := q;
              size := s;
              table_count := t;
              last_accessed := now;
              is_favorite := match p_is_favorite p with
                             | Some b => if b then 1 else 0
                             | None => is_favorite r
                             end;
              notes := assign_null (p_notes p) (notes r);
              schema_cache := assign_null (p_schema_cache p) (schema_cache r);
              schema_updated_at := assign_null (p_schema_updated_at p) (schema_updated_at r);
              created_at := created_at r |}
  | _, _, _, _ => None
  end.

(** Does a row other than those with id [i] hold path [q]? *)
Definition path_taken_by_other (i : Z) (q : string) (rows : list DatabaseMetadata) : bool :=
  existsb (fun y => negb (Z.eqb (id y) i) && String.eqb (path y) q)%bool rows.

(** [UPDATE database_metadata SET ... WHERE id = ?] over the rows, in
    table order; [None] when a constraint fails, in which case the
    statement changes nothing. *)
Fixpoint update_rows (i : Z) (p : Partial) (now : Z)
    (table rows : list DatabaseMetadata) : option (list DatabaseMetadata) :=
  match rows with
  | [] => Some []
  | x :: rest =>
      if Z.eqb (id x) i then
        match updated_row p now x with
        | None => None
        | Some x' =>
            if path_taken_by_other i (path x') table then None
            else
              match update_rows i p now table rest with
              | None => None
              | Some rest' => Some (x' :: rest')
              end
        end
      else
        match update_rows i p now table rest with
        | None => None
        | Some rest' => Some (x :: rest')
        end
  end.

(** What a successful UPDATE does to a row when one record has the id. *)
Definition replace_id (i : Z) (r' x : DatabaseMetadata) : DatabaseMetadata :=
  if Z.eqb (id x) i then r' else x.

Definition with_rows (rows : list DatabaseMetadata) (d : Db) : Db :=
  {| live := {| table_rows := rows; table_seq := table_seq (live d) |};
     pending := pending d |}.

(** [update(id, metadata)]: every failure (unknown id, a SET list that is
    empty and so does not parse, a constraint) is caught and answered with
    [null]. *)
Definition update (i : Z) (p : Partial) (now : Z) (d : Db) : option DatabaseMetadata * Db :=
  match findById i d with
  | None => (None, d)
  | Some _ =>
      if no_updates p then (None, d)
      else
        match update_rows i p now (table_rows (live d)) (table_rows (live d)) with
        | None => (None, d)
        | Some rows' => (findById i (with_rows rows' d), with_rows rows' d)
        end
  end.

(** [delete(id)]: [DELETE FROM database_metadata WHERE id = ?], then
    [result.changes > 0]. The AUTOINCREMENT counter stays. *)
Definition delete (i : Z) (d : Db) : bool * Db :=
  let kept := List.filter (fun r => negb (Z.eqb (id r) i)) (table_rows (live d)) in
  (Nat.ltb (length kept) (length (table_rows (live d))), with_rows kept d).

(** [a] may come before [b] in a result ordered by
    [last_accessed DESC]. *)
Definition newer_first (a b : DatabaseMetadata) : Prop := last_accessed b <= last_accessed a.

(** [listFavorites()]: [SELECT ... FROM database_metadata
     WHERE is_favorite = 1 ORDER BY last_accessed DESC] *)
Definition listFavorites (d : Db) : list DatabaseMetadata :=
  order_by_desc last_accessed
    (List.filter (fun r => Z.eqb (is_favorite r) 1) (table_rows (live d))).

(** PRIMARY KEY: no two rows share an id. *)
Definition unique_ids (d : Db) : Prop := NoDup (map id (table_rows (live d))).

(** [list()]: [SELECT ... FROM database_metadata
     ORDER BY last_accessed DESC] *)
Definition list (d : Db) : Datatypes.list DatabaseMetadata :=
  order_by_desc last_accessed (table_rows (live d)).

End MetadataQueries.

(** ** utils/app-db.ts, the remaining methods *)

Module AppDbQueries.

Import AppDb.

(** [Object.fromEntries]: a later entry overwrites an earlier one with
    the same key. *)
Definition fromEntries (es : list (string * string)) : gmap string string :=
  fold_left (fun m e => <[e.1 := e.2]> m) es ∅.

(** [SELECT key, value FROM user_preferences], then [Object.fromEntries]. *)
Definition getAllPreferences (db : AppDatabase) : gmap string string :=
  fromEntries (map (fun p => (key p, value p)) (user_preferences db)).

(** A row of this module's [query_history] table. *)
Record QueryHistoryEntry : Type := mkHistory {
  h_id : Z;
  h_query : string;
  h_database_name : string;
  h_executed_at : Z;
  h_execution_time_ms : Z;
  h_success : bool;
  h_error_message : option string
}.

(** [Omit<QueryHistoryEntry, 'id'>], the argument of [addQueryToHistory]. *)
Record NewHistoryEntry : Type := mkNewHistory {
  n_query : string;
  n_database_name : string;
  n_executed_at : Z;
  n_execution_time_ms : Z;
  n_success : bool;
  n_error_message : option string
}.

(** The [query_history] table with its AUTOINCREMENT counter. *)
Record HistoryTable : Type := mkHistoryTable {
  history_rows : list QueryHistoryEntry;
  history_seq : Z
}.

Definition no_history : HistoryTable := {| history_rows := []; history_seq := 0 |}.

(** [INSERT INTO query_history (query, database_name, execution_time_ms,
     success, error_message) VALUES (...) RETURNING *], then [result[0]]:
    [executed_at] is not among the columns written and takes its default,
    CURRENT_TIMESTAMP. *)
Definition addQueryToHistory (e : NewHistoryEntry) (now : Z) (t : HistoryTable)
  : QueryHistoryEntry * HistoryTable :=
  let r := {| h_id := history_seq t + 1;
              h_query := n_query e;
              h_database_name := n_database_name e;
              h_executed_at := now;
              h_execution_time_ms := n_execution_time_ms e;
              h_success := n_success e;
              h_error_message := n_error_message e |} in
  (r, {| history_rows := history_rows t ++ [r]; history_seq := history_seq t + 1 |}).

(** [a] may come before [b] in a result ordered by [executed_at DESC]. *)
Definition executed_first (a b : QueryHistoryEntry) : Prop := h_executed_at b <= h_executed_at a.

(** [LIMIT n]: a negative [n] means no limit. *)
Definition sql_limit {A : Type} (n : Z) (l : list A) : list A :=
  if Z.ltb n 0 then l else take (Z.to_nat n) l.

(** [getRecentQueries(limit = 50)]: [SELECT * FROM query_history
     ORDER BY executed_at DESC LIMIT limit]; [None] stands for a call
    without argument. *)
Definition getRecentQueries (limit : option Z) (t : HistoryTable) : list QueryHistoryEntry :=
  sql_limit (default 50 limit) (order_by_desc h_executed_at (history_rows t)).

End AppDbQueries.

(** ** The browser-side list of recent databases (class DatabaseStore) *)

Module DatabaseStore.

Record StoredDatabase : Type := mkStored {
  path : string;
  name : string;
  lastAccessed : string;
  tables : list string;
  size : Z
}.

(** [Omit<StoredDatabase, 'lastAccessed'>] *)
Record NewDatabase : Type := mkNewStored {
  new_path : string;
  new_name : string;
  new_tables : list string;
  new_size : Z
}.

(** What [localStorage] holds under [STORAGE_KEY]: nothing, the JSON text
    of a list of entries (kept here as the list it parses back to), or a
    text that [JSON.parse] rejects. *)
Inductive Item : Type :=
| Absent
| Stored (dbs : list StoredDatabase)
| Unparsable (raw : string).

Definition MAX_RECENT_DBS : nat := 10.

Definition getStoredDatabases (s : Item) : list StoredDatabase :=
  match s with
  | Stored dbs => dbs
  | Absent | Unparsable _ => []
  end.

Definition addDatabase (db : NewDatabase) (now : string) (s : Item) : StoredDatabase * Item :=
  let databases := getStoredDatabases s in
  let filtered := List.filter (fun d => negb (String.eqb (path d) (new_path db))) databases in
  let newEntry := {| path := new_path db; name := new_name db; lastAccessed := now;
                     tables := new_tables db; size := new_size db |} in
  let updated := take MAX_RECENT_DBS (newEntry :: filtered) in
  (newEntry, Stored updated).

Definition removeDatabase (p : string) (s : Item) : Item :=
  Stored (List.filter (fun d => negb (String.eqb (path d) p)) (getStoredDatabases s)).

(** [databases[index].lastAccessed = ...] at the first entry with the
    path, the one [findIndex] returns. *)
Fixpoint touch_first (p now : string) (dbs : list StoredDatabase) : list StoredDatabase :=
  match dbs with
  | [] => []
  | d :: rest =>
      if String.eqb (path d) p
      then {| path := path d; name := name d; lastAccessed := now;
              tables := tables d; size := size d |} :: rest
      else d :: touch_first p now rest
  end.

Definition updateLastAccessed (p now : string) (s : Item) : Item :=
  let databases := getStoredDatabases s in
  if existsb (fun d => String.eqb (path d) p) databases
  then Stored (touch_first p now databases)
  else s.

Definition clearAll (s : Item) : Item := Absent.

Definition isDatabaseStored (p : string) (s : Item) : bool :=
  existsb (fun d => String.eqb (path d) p) (getStoredDatabases s).

Definition getMostRecent (s : Item) : option StoredDatabase :=
  head (getStoredDatabases s).

(** What the store keeps once it has written the list itself: at most
    [MAX_RECENT_DBS] entries, no path twice. *)
Definition tidy (s : Item) : Prop :=
  (length (getStoredDatabases s) <= MAX_RECENT_DBS)%nat /\
  NoDup (map path (getStoredDatabases s)).

End DatabaseStore.

(** ** The server entry point: the catalog routes *)

Module Server.

Import MetadataModel.

(** What a handler sends: a JSON reply of its own, or the framework's
    plain-text 500 when the handler itself throws. *)
Inductive Reply : Type :=
| Json (r : Response)
| Text (status : Z) (text : string).

Definition reply_status (r : Reply) : Z :=
  match r with
  | Json r => status r
  | Text s _ => s
  end.

Definition test_database : NewMetadata :=
  {| new_name := "Test Database";
     new_path := "/path/to/test.db";
     new_size := 1024;
     new_table_count := 5;
     new_is_favorite := false;
     new_notes := Some "This is a test database";
     new_schema_cache := None;
     new_schema_updated_at := None |}.

(** [POST /databases/test] *)
Definition createTest (now : Z) (d : Db) : Response * Db :=
  match create test_database now d with
  | (Ok testDb, d') => (json (JObj [("database", to_js testDb)]) 200, d')
  | (Throw _, d') => (json (JObj [("error", JStr "Failed to create test database")]) 500, d')
  end.

Definition not_found : Response := json (JObj [("error", JStr "Database not found")]) 404.

(** [findById(parseInt(c.req.param('id')))]; [None] stands for NaN, which
    matches no row. *)
Definition lookup (i : option Z) (d : Db) : option DatabaseMetadata :=
  match i with
  | Some n => findById n d
  | None => None
  end.

Section Routes.

Variable engine : option (list byte) -> string -> EngineReply.

(** The [catch] clause of the query route reads [error.message] without
    testing what was thrown. *)
Definition query_failed (e : Thrown) : Reply :=
  match e with
  | ErrorObj m =>
      Json (json (JObj [("error", JStr "Failed to execute query"); ("details", JStr m)]) 500)
  | NonError v =>
      match get_prop v "message" with
      | Ok details =>
          Json (json (JObj [("error", JStr "Failed to execute query"); ("details", details)]) 500)
      | Throw _ => Text 500 "Internal Server Error"
      end
  end.

(** [POST /databases/:id/query] with the body's [sql] a string: the
    record's file is opened, queried and closed; what any of the three
    throws goes to the [catch] clause. *)
Definition postQuery (i : option Z) (sql : string) (w : World) (d : Db)
  : Reply * World :=
  match lookup i d with
  | None => (Json not_found, w)
  | Some metadata =>
      match Upload.all engine (path metadata) sql w with
      | (Throw e, w') => (query_failed e, w')
      | (Ok results, w') => (Json (json (JObj [("results", JArr results)]) 200), w')
      end
  end.

End Routes.

End Server.

(** ** The client's API wrapper (class ApiClient) *)

Module ApiClient.

(** [response.ok] *)
Definition ok (st : Z) : bool := (Z.leb 200 st && Z.leb st 299)%bool.

(** [a || b] *)
Definition or_else (a b : JsVal) : JsVal := if falsy a then b else a.

Section Client.

(** [String(v)] for a value that is not a string. *)
Variable String_of : JsVal -> string.

(** What [response.json()] throws on a body that is not JSON. *)
Variable syntax_error : string -> Thrown.

(** [new Error(v)] *)
Definition new_Error (v : JsVal) : Thrown :=
  ErrorObj match v with
           | JStr s => s
           | _ => String_of v
           end.

(** [await response.json()] *)
Definition json_of (r : Server.Reply) : Res Thrown JsVal :=
  match r with
  | Server.Json r => Ok (body r)
  | Server.Text _ t => Throw (syntax_error t)
  end.

(** [executeQuery], from the reply to its request on. *)
Definition executeQuery (reply : Server.Reply) : Res Thrown JsVal :=
  if ok (Server.reply_status reply) then json_of reply
  else
    match json_of reply with
    | Throw e => Throw e
    | Ok error =>
        match get_prop error "details" with
        | Throw e => Throw e
        | Ok details => Throw (new_Error (or_else details (JStr "Failed to execute query")))
        end
    end.

(** [uploadDatabase], from the reply to its request on. *)
Definition uploadDatabase (reply : Response) : Res Thrown JsVal :=
  if ok (status reply) then
    match get_prop (body reply) "database" with
    | Throw e => Throw e
    | Ok database =>
        if falsy database then Throw (ErrorObj "Invalid response format")
        else Ok database
    end
  else Throw (ErrorObj "Failed to upload database").

End Client.

End ApiClient.

(** ** The control database connection (class DatabaseConnection) *)

Module DbConnection.

Import MetadataModel.

(** [transaction(callback)]: [BEGIN] before the [try]; the callback and
    [COMMIT] inside it; [ROLLBACK] and re-raise in the [catch]. On this
    one connection [BEGIN] acts as [BEGIN IMMEDIATE] does. *)
Definition transaction {T : Type} (callback : Db -> Res Thrown T * Db) (d : Db)
  : Res Thrown T * Db :=
  match exec BEGIN_IMMEDIATE d with
  | (Throw e, d1) => (Throw e, d1)
  | (Ok _, d1) =>
      let attempt :=
        match callback d1 with
        | (Throw e, d2) => (Throw e, d2)
        | (Ok result, d2) =>
            match exec COMMIT d2 with
            | (Throw e, d3) => (Throw e, d3)
            | (Ok _, d3) => (Ok result, d3)
            end
        end in
      match attempt with
      | (Ok result, d') => (Ok result, d')
      | (Throw e, d') =>
          match exec ROLLBACK d' with
          | (Throw e2, d'') => (Throw e2, d'')
          | (Ok _, d'') => (Throw e, d'')
          end
      end
  end.

(** [getStoragePath(type)] under a storage root. *)
Definition getStoragePath (storagePath type : string) : string := Upload.join storagePath type.

End DbConnection.

(** Texts without a dash, such as the decimal digits of a time stamp. *)
Fixpoint dash_free (s : string) : bool :=
  match s with
  | EmptyString => true
  | String c r => (negb (Ascii.eqb c "-") && dash_free r)%bool
  end.

(** File names without a path separator, the names [Upload.join] is
    [path.join] for. *)
Fixpoint separator_free (s : string) : bool :=
  match s with
  | EmptyString => true
  | String c r => (negb (Ascii.eqb c "/") && negb (Ascii.eqb c "\") && separator_free r)%bool
  end.

(** ** More sample data *)

Module Scenario.

(** A partial record that renames, clears the notes and marks as
    favourite; its [id] and [created_at] members are to be ignored. *)
Definition rename : MetadataQueries.Partial :=
  {| MetadataQueries.p_id := Some 99;
     MetadataQueries.p_name := Some (Some "renamed.db");
     MetadataQueries.p_path := None;
     MetadataQueries.p_size := None;
     MetadataQueries.p_table_count := None;
     MetadataQueries.p_last_accessed := Some 1;
     MetadataQueries.p_is_favorite := Some true;
     MetadataQueries.p_notes := Some None;
     MetadataQueries.p_schema_cache := None;
     MetadataQueries.p_schema_updated_at := None;
     MetadataQueries.p_created_at := Some 1 |}.

Definition registered_row : MetadataModel.DatabaseMetadata :=
  MetadataModel.new_row Sample.registration 1007 1.

Definition renamed_row : MetadataModel.DatabaseMetadata :=
  {| MetadataModel.id := 1;
     MetadataModel.name := "renamed.db";
     MetadataModel.path := "/srv/storage/databases/1000-a.db";
     MetadataModel.size := 16;
     MetadataModel.table_count := 0;
     MetadataModel.last_accessed := 2000;
     MetadataModel.is_favorite := 1;
     MetadataModel.notes := None;
     MetadataModel.schema_cache := None;
     MetadataModel.schema_updated_at := None;
     MetadataModel.created_at := 1007 |}.

Definition preferences : AppDb.AppDatabase :=
  AppDb.setPreference "fontSize" "14" 5 AppDb.empty.

Definition catalog : AppDb.AppDatabase :=
  AppDb.updateDatabaseMetadata Sample.upsert_input 10 AppDb.empty.

Definition ran : AppDbQueries.NewHistoryEntry :=
  {| AppDbQueries.n_query := "select 1";
     AppDbQueries.n_database_name := "a.db";
     AppDbQueries.n_executed_at := 0;
     AppDbQueries.n_execution_time_ms := 7;
     AppDbQueries.n_success := true;
     AppDbQueries.n_error_message := None |}.

Definition earlier : AppDbQueries.HistoryTable :=
  (AppDbQueries.addQueryToHistory ran 100 AppDbQueries.no_history).2.

Definition recent : DatabaseStore.Item :=
  (DatabaseStore.addDatabase
     {| DatabaseStore.new_path := "/data/a.db"; DatabaseStore.new_name := "a.db";
        DatabaseStore.new_tables := ["t"]; DatabaseStore.new_size := 16 |}
     "2024-01-01T00:00:00.000Z" DatabaseStore.Absent).2.

Definition second : DatabaseStore.NewDatabase :=
  {| DatabaseStore.new_path := "/data/b.db"; DatabaseStore.new_name := "b.db";
     DatabaseStore.new_tables := []; DatabaseStore.new_size := 18 |}.

(** A callback that registers a record with a plain INSERT and then
    fails. *)
Definition insert_then_fail (d : MetadataModel.Db) : Res Thrown Z * MetadataModel.Db :=
  (Throw (ErrorObj "boom"), (MetadataModel.insert Sample.registration 1007 d).2).

Definition later : World :=
  {| files := ∅; open_pools := []; next_handle := 0; clock := 1001; trace := [] |}.

End Scenario.

(** * Properties *)

(** ** Strings *)

Section StringFacts.

Import JsString.

Lemma lower_space (c : ascii) : is_space (lower c) = is_space c.
Proof. destruct c as [[] [] [] [] [] [] [] []]; reflexivity. Qed.

Lemma lower_lower (c : ascii) : lower (lower c) = lower c.
Proof. destruct c as [[] [] [] [] [] [] [] []]; reflexivity. Qed.

Lemma toLowerCase_idem (s : string) : toLowerCase (toLowerCase s) = toLowerCase s.
Proof. induction s as [|c s IH]; simpl; [reflexivity|]. now rewrite lower_lower, IH. Qed.

Lemma toLowerCase_rev_append (s acc : string) :
  toLowerCase (rev_append s acc) = rev_append (toLowerCase s) (toLowerCase acc).
Proof.
  revert acc; induction s as [|c s IH]; intros acc; simpl; [reflexivity|].
  now rewrite IH.
Qed.

Lemma toLowerCase_rev (s : string) : toLowerCase (rev s) = rev (toLowerCase s).
Proof. apply toLowerCase_rev_append. Qed.

Lemma trimStart_lower (s : string) :
  trimStart (toLowerCase s) = toLowerCase (trimStart s).
Proof.
  induction s as [|c s IH]; simpl; [reflexivity|].
  rewrite lower_space. destruct (is_space c); [exact IH | reflexivity].
Qed.

Lemma trim_lower (s : string) : trim (toLowerCase s) = toLowerCase (trim s).
Proof.
  unfold trim, trimEnd.
  now rewrite trimStart_lower, <- toLowerCase_rev, trimStart_lower, toLowerCase_rev.
Qed.

Lemma trimStart_idem (s : string) : trimStart (trimStart s) = trimStart s.
Proof.
  induction s as [|c s IH]; simpl; [reflexivity|].
  destruct (is_space c) eqn:E; [exact IH|]. simpl. now rewrite E.
Qed.

Lemma trim_trimStart (s : string) : trim (trimStart s) = trim s.
Proof. unfold trim. now rewrite trimStart_idem. Qed.

(** [startsWith] reads as many characters as the word has. *)
Lemma startsWith_substring (p t : string) :
  startsWith t p = String.eqb (substring 0 (String.length p) t) p.
Proof.
  revert t; induction p as [|a p IH]; intros t.
  - destruct t; reflexivity.
  - destruct t as [|b t]; [reflexivity|].
    cbn [startsWith substring String.length String.eqb].
    rewrite (Ascii.eqb_sym a b), IH.
    destruct (Ascii.eqb b a); reflexivity.
Qed.

Lemma startsWith_select (t : string) :
  startsWith t "select" = String.eqb (substring 0 6 t) "select".
Proof. apply (startsWith_substring "select"). Qed.

End StringFacts.

(** ** Statement classification *)

Section Classification.

Import DbManager.

Lemma isSelect_trimStart (sql : string) : isSelect (JsString.trimStart sql) = isSelect sql.
Proof. unfold isSelect. now rewrite trim_trimStart. Qed.

Lemma isSelect_lower (sql : string) : isSelect (JsString.toLowerCase sql) = isSelect sql.
Proof. unfold isSelect. now rewrite trim_lower, toLowerCase_idem. Qed.

Lemma executeQuery_open engine sql h i w :
  executeQuery engine sql {| currentDb := Some h; currentDbInfo := i |} w =
  (match outcome (engine (files w !! hpath h) (sql_value (JStr sql))) with
   | Throw e => Throw e
   | Ok res =>
       Ok (if isSelect sql then JArr (rows res)
           else JObj [("changes", JArr (rows res))])
   end,
   (query engine h (sql_value (JStr sql)) w).2).
Proof.
  unfold executeQuery, query; simpl.
  destruct (outcome (engine (files w !! hpath h) (sql_value (JStr sql)))); reflexivity.
Qed.

End Classification.

(** C6. The classification reads the first six characters of the trimmed,
    lower-cased text and nothing else: leading white space and letter case
    do not change it; a statement classified as a read has the engine's
    rows returned as they are, any other statement has them wrapped in a
    [changes] object; ["  select 1"] (also in mixed case) is a read and
    ["insert into t values (1)"] is a write. *)
Theorem classification_by_first_keyword :
  (forall sql : string,
      DbManager.isSelect sql =
      String.eqb (substring 0 6 (JsString.toLowerCase (JsString.trim sql))) "select") /\
  (forall sql : string, DbManager.isSelect (JsString.trimStart sql) = DbManager.isSelect sql) /\
  (forall sql : string, DbManager.isSelect (JsString.toLowerCase sql) = DbManager.isSelect sql) /\
  (forall engine sql h i w,
      (DbManager.executeQuery engine sql
         {| DbManager.currentDb := Some h; DbManager.currentDbInfo := i |} w).1 =
      match outcome (engine (files w !! hpath h) (sql_value (JStr sql))) with
      | Throw e => Throw e
      | Ok res =>
          Ok (if DbManager.isSelect sql then JArr (rows res)
              else JObj [("changes", JArr (rows res))])
      end) /\
  DbManager.isSelect "  select 1" = true /\
  DbManager.isSelect "  SeLeCt 1" = true /\
  DbManager.isSelect "insert into t values (1)" = false.
Proof.
  split; [intros sql; apply startsWith_select|].
  split; [exact isSelect_trimStart|].
  split; [exact isSelect_lower|].
  split; [intros; now rewrite executeQuery_open|].
  repeat split; reflexivity.
Qed.

(** ** The connection manager *)

Section ManagerFacts.

Import DbManager.

Variable engine : option (list byte) -> SQLQuery -> EngineReply.

Lemma handle_eqb_refl (h : Handle) : handle_eqb h h = true.
Proof. unfold handle_eqb. now rewrite Nat.eqb_refl, String.eqb_refl. Qed.

Lemma query_pools h sql w :
  open_pools (query engine h sql w).2 = open_pools w /\
  next_handle (query engine h sql w).2 = next_handle w /\
  (exists rest, trace (query engine h sql w).2 = (trace w ++ rest)%list).
Proof. unfold query; simpl. repeat split. now exists [EvQuery h sql]. Qed.

Lemma cleanup_pools p w :
  open_pools (loadDatabase_cleanup p w) = open_pools w /\
  next_handle (loadDatabase_cleanup p w) = next_handle w /\
  (exists rest, trace (loadDatabase_cleanup p w) = (trace w ++ rest)%list).
Proof.
  unfold loadDatabase_cleanup. destruct (files w !! p); simpl; repeat split.
  - now exists [EvUnlink p].
  - exists []. now rewrite app_nil_r.
Qed.

Lemma close_coherent m w :
  coherent m w ->
  coherent (closeCurrentDatabase m w).1 (closeCurrentDatabase m w).2 /\
  currentDb (closeCurrentDatabase m w).1 = None /\
  currentDbInfo (closeCurrentDatabase m w).1 = None /\
  open_pools (closeCurrentDatabase m w).2 = [] /\
  next_handle (closeCurrentDatabase m w).2 = next_handle w.
Proof.
  intros (Hp & Hf & Hi). unfold closeCurrentDatabase.
  destruct (currentDb m) as [h|] eqn:E; simpl.
  - assert (Hd : open_pools (dispose h w) = []).
    { simpl. rewrite Hp; simpl. now rewrite handle_eqb_refl. }
    unfold coherent; simpl currentDb; simpl currentDbInfo.
    rewrite Hd. repeat split; auto.
  - repeat split; auto. unfold coherent. rewrite E. auto.
Qed.

(** What [loadDatabase] leaves behind, whether it returns or throws. *)
Lemma load_shape filePath originalName m w :
  let h' := {| hid := next_handle (closeCurrentDatabase m w).2; hpath := filePath |} in
  let out := loadDatabase engine filePath originalName m w in
  currentDb out.1.2 = Some h' /\
  open_pools out.2 = (open_pools (closeCurrentDatabase m w).2 ++ [h'])%list /\
  next_handle out.2 = S (next_handle (closeCurrentDatabase m w).2) /\
  (exists rest,
      trace out.2 = (trace (closeCurrentDatabase m w).2 ++ EvOpen h' :: rest)%list) /\
  match out.1.1 with
  | Ok info =>
      currentDbInfo out.1.2 = Some info /\ path info = filePath /\
      name info = originalName
  | Throw _ => currentDbInfo out.1.2 = currentDbInfo (closeCurrentDatabase m w).1
  end.
Proof.
  intros h' out. subst out. unfold loadDatabase.
  destruct (closeCurrentDatabase m w) as [m1 w1] eqn:Ec. simpl in h'.
  unfold createConnectionPool. fold h'.
  set (w2 := log (EvOpen h') _).
  destruct (query engine h' (sql_text tables_sql) w2) as [r w3] eqn:Eq.
  pose proof (query_pools h' (sql_text tables_sql) w2) as (Qp & Qn & rq & Qt).
  rewrite Eq in Qp, Qn, Qt; simpl in Qp, Qn, Qt.
  pose proof (cleanup_pools filePath w3) as (Cp & Cn & rc & Ct).
  assert (Hthrow : forall e : Thrown,
             let out := (Throw e : Res Thrown DatabaseInfo,
                         {| currentDb := Some h'; currentDbInfo := currentDbInfo m1 |},
                         loadDatabase_cleanup filePath w3) in
             currentDb out.1.2 = Some h' /\
             open_pools out.2 = (open_pools w1 ++ [h'])%list /\
             next_handle out.2 = S (next_handle w1) /\
             (exists rest, trace out.2 = (trace w1 ++ EvOpen h' :: rest)%list) /\
             currentDbInfo out.1.2 = currentDbInfo m1).
  { intros e; cbn [fst snd currentDb currentDbInfo].
    rewrite Cp, Cn, Qp, Qn, Ct, Qt.
    repeat split; try reflexivity.
    exists (rq ++ rc)%list. now rewrite <- !app_assoc. }
  destruct r as [res|e]; [|exact (Hthrow e)].
  destruct (names (rows res)) as [tbls|e]; [|exact (Hthrow e)].
  destruct (files w3 !! filePath) as [bytes|]; [|exact (Hthrow _)].
  cbn [fst snd currentDb currentDbInfo path name].
  rewrite Qp, Qn, Qt. repeat split; try reflexivity.
  exists rq. now rewrite <- app_assoc.
Qed.

Lemma load_coherent filePath originalName m w :
  coherent m w ->
  coherent (loadDatabase engine filePath originalName m w).1.2
           (loadDatabase engine filePath originalName m w).2.
Proof.
  intros H. destruct (close_coherent m w H) as (_ & _ & _ & Hp & _).
  destruct (load_shape filePath originalName m w) as (Hc & Ho & Hn & _ & _).
  rewrite Hp in Ho; simpl in Ho.
  unfold coherent. rewrite Hc, Ho, Hn. repeat split.
  - constructor; [simpl; lia | constructor].
  - discriminate.
Qed.

Lemma executeQuery_pools sql m w :
  open_pools (executeQuery engine sql m w).2 = open_pools w /\
  next_handle (executeQuery engine sql m w).2 = next_handle w.
Proof.
  unfold executeQuery. destruct (currentDb m) as [h|]; [|now split].
  destruct (query engine h (sql_value (JStr sql)) w) as [r w'] eqn:E.
  pose proof (query_pools h (sql_value (JStr sql)) w) as (Hp & Hn & _). rewrite E in Hp, Hn.
  destruct r; simpl in *; now split.
Qed.

Lemma reachable_coherent m w : reachable engine m w -> coherent m w.
Proof.
  induction 1 as [w Hw | m w f o _ IH | m w _ IH | m w sql _ IH].
  - unfold coherent; simpl. rewrite Hw. auto.
  - now apply load_coherent.
  - now apply close_coherent.
  - destruct IH as (Hp & Hf & Hi).
    destruct (executeQuery_pools sql m w) as (Ep & En).
    unfold coherent. rewrite Ep, En. auto.
Qed.

End ManagerFacts.

(** C7. With nothing opened, or after a close, asking for the current
    summary throws the "No database currently loaded" error instead of
    returning, and so does running a statement; the same holds in every
    state in which the manager is not connected. *)
Theorem no_connection_errors engine m w sql
    (Hr : DbManager.reachable engine m w) :
  DbManager.getCurrentDatabaseInfo DbManager.initial = Throw DbManager.no_database /\
  DbManager.executeQuery engine sql DbManager.initial w = (Throw DbManager.no_database, w) /\
  DbManager.getCurrentDatabaseInfo (DbManager.closeCurrentDatabase m w).1
    = Throw DbManager.no_database /\
  DbManager.executeQuery engine sql (DbManager.closeCurrentDatabase m w).1
      (DbManager.closeCurrentDatabase m w).2
    = (Throw DbManager.no_database, (DbManager.closeCurrentDatabase m w).2) /\
  (if DbManager.isConnected m then True
   else DbManager.getCurrentDatabaseInfo m = Throw DbManager.no_database /\
        DbManager.executeQuery engine sql m w = (Throw DbManager.no_database, w)).
Proof.
  pose proof (reachable_coherent engine m w Hr) as Hc.
  destruct (close_coherent m w Hc) as (_ & Hdb & Hinfo & _ & _).
  split; [reflexivity|]. split; [reflexivity|].
  split; [unfold DbManager.getCurrentDatabaseInfo; now rewrite Hinfo|].
  split; [unfold DbManager.executeQuery; now rewrite Hdb|].
  destruct Hc as (_ & _ & Hi).
  unfold DbManager.isConnected, DbManager.getCurrentDatabaseInfo, DbManager.executeQuery.
  destruct (DbManager.currentDb m); [exact I|].
  now rewrite Hi.
Qed.

Lemma no_connection_errors_witness :
  DbManager.reachable Sample.pool Sample.opened.1.2 Sample.opened.2 /\
  DbManager.getCurrentDatabaseInfo
    (DbManager.closeCurrentDatabase Sample.opened.1.2 Sample.opened.2).1
  = Throw DbManager.no_database.
Proof.
  assert (H : DbManager.reachable Sample.pool Sample.opened.1.2 Sample.opened.2).
  { apply DbManager.reach_load, DbManager.reach_init. reflexivity. }
  split; [exact H|].
  exact (proj1 (proj2 (proj2 (no_connection_errors Sample.pool _ _ "select 1" H)))).
Defined.



(** ** The query route *)

Section QueryFacts.

Import DbManager QueryRoute.

Variable engine : option (list byte) -> SQLQuery -> EngineReply.
Variable archive : JsVal -> option string.

Lemma query_clock h sql w :
  clock (DbManager.query engine h (sql_value (JStr sql)) w).2 - clock w
  = elapsed_ms (engine (files w !! hpath h) (sql_value (JStr sql))).
Proof. unfold DbManager.query; simpl. lia. Qed.

(** The inner block on an open connection, by the engine's outcome. *)
Lemma run_and_record_open sql m w history h info :
  currentDb m = Some h ->
  currentDbInfo m = Some info ->
  let reply := engine (files w !! hpath h) (sql_value (JStr sql)) in
  let w' := (DbManager.query engine h (sql_value (JStr sql)) w).2 in
  run_and_record engine archive sql (clock w) m w history =
  match outcome reply with
  | Ok res =>
      let results := if isSelect sql then JArr (rows res)
                     else JObj [("changes", JArr (rows res))] in
      (Ok (if isSelect sql then json (JObj [("results", results)]) 200
           else json (JObj [("changes", JArr (rows res)); ("lastInsertId", JUndefined)]) 200),
       w',
       (history ++
        [ {| query := sql; database_name := name info; database_path := path info;
             executed_at := clock w'; execution_time_ms := elapsed_ms reply;
             success := true; error_message := None;
             results_path := archive results |} ])%list)
  | Throw e =>
      (Throw e, w',
       (history ++
        [ {| query := sql; database_name := name info; database_path := path info;
             executed_at := clock w'; execution_time_ms := elapsed_ms reply;
             success := false; error_message := Some (message_or_unknown e);
             results_path := None |} ])%list)
  end.
Proof.
  intros Hdb Hinfo reply w'. subst w'.
  unfold run_and_record, attempt, getCurrentDatabaseInfo, executeQuery.
  rewrite Hinfo, Hdb.
  pose proof (query_clock h sql w) as Hc. fold reply in Hc.
  assert (Hr : (DbManager.query engine h (sql_value (JStr sql)) w).1 = outcome reply)
    by reflexivity.
  unfold addToHistory. revert Hc Hr.
  destruct (DbManager.query engine h (sql_value (JStr sql)) w) as [r w1]. cbn [fst snd].
  intros Hc Hr. subst r.
  destruct (outcome reply) as [res|e]; cbn [in_query in_database_name
    in_database_path in_execution_time_ms in_success in_error_message in_results].
  - rewrite Hc. destruct (isSelect sql); reflexivity.
  - rewrite Hc. reflexivity.
Qed.

End QueryFacts.

(** C1. On an open connection (handle and summary both set) every
    non-empty SQL string sent to the query route appends exactly one
    history entry, for that string and the current file, holding the time
    the engine call took; when the engine succeeds the entry has
    [success = true] and the reply is a 200, when it throws the entry has
    [success = false] and the error's message, the inner block re-raises
    that same error with the entry already written, and the reply is a 500
    carrying the message. The message recorded is not empty as long as the
    engine's errors carry one. *)
Theorem history_records_every_execution engine archive sql m w history h info
    (Hsql : sql <> "")
    (Hdb : DbManager.currentDb m = Some h)
    (Hinfo : DbManager.currentDbInfo m = Some info)
    (Hmsg : outcome (engine (files w !! hpath h) (sql_value (JStr sql))) <> Throw (ErrorObj "")) :
  let reply := engine (files w !! hpath h) (sql_value (JStr sql)) in
  let inner := QueryRoute.run_and_record engine archive sql (clock w) m w history in
  let out := QueryRoute.post engine archive (Some sql) m w history in
  exists entry,
    out.2 = (history ++ [entry])%list /\
    inner.2 = out.2 /\
    QueryRoute.query entry = sql /\
    QueryRoute.database_name entry = DbManager.name info /\
    QueryRoute.database_path entry = DbManager.path info /\
    QueryRoute.execution_time_ms entry = elapsed_ms reply /\
    match outcome reply with
    | Ok _ =>
        QueryRoute.success entry = true /\
        QueryRoute.error_message entry = None /\
        (exists resp, inner.1.1 = Ok resp /\ out.1.1 = resp /\ status resp = 200)
    | Throw e =>
        QueryRoute.success entry = false /\
        QueryRoute.error_message entry = Some (message_or_unknown e) /\
        QueryRoute.error_message entry <> Some "" /\
        inner.1.1 = Throw e /\
        out.1.1 = json (JObj [("error", JStr "Failed to execute query");
                              ("details", JStr (message_or_unknown e))]) 500
    end.
Proof.
  intros reply inner out. subst inner out.
  unfold QueryRoute.post, DbManager.isConnected. rewrite Hdb. cbn [negb].
  destruct (String.eqb sql "") eqn:E; [apply String.eqb_eq in E; contradiction|].
  rewrite (run_and_record_open engine archive sql m w history h info Hdb Hinfo).
  fold reply in Hmsg |- *.
  destruct (outcome reply) as [res|e]; eexists; cbn [fst snd].
  - repeat split; try reflexivity.
    eexists. split; [reflexivity|]. split; [reflexivity|].
    destruct (DbManager.isSelect sql); reflexivity.
  - repeat split; try reflexivity.
    cbn [QueryRoute.error_message]. intros H. injection H as H.
    destruct e as [msg|v]; simpl in H; [subst msg; now apply Hmsg | discriminate].
Qed.

Lemma history_records_every_execution_witness :
  exists entry,
    (QueryRoute.post Sample.pool Sample.archive (Some "drop") Sample.opened.1.2
       Sample.opened.2 []).2 = [entry] /\
    QueryRoute.success entry = false /\
    QueryRoute.error_message entry = Some "SQLITE_ERROR: syntax error".
Proof.
  assert (Hdb : DbManager.currentDb Sample.opened.1.2
                = Some {| hid := 0; hpath := "/data/a.db" |}) by reflexivity.
  assert (Hinfo : DbManager.currentDbInfo Sample.opened.1.2
                  = Some {| DbManager.path := "/data/a.db"; DbManager.name := "a.db";
                            DbManager.size := 16; DbManager.tables := [];
                            DbManager.lastAccessed := 1007 |}) by reflexivity.
  assert (Hsql : "drop" <> "") by discriminate.
  assert (Hmsg : outcome (Sample.pool (files Sample.opened.2 !! "/data/a.db")
                            (sql_value (JStr "drop")))
                 <> Throw (ErrorObj "")) by (vm_compute; discriminate).
  destruct (history_records_every_execution Sample.pool Sample.archive "drop"
              Sample.opened.1.2 Sample.opened.2 [] _ _ Hsql Hdb Hinfo Hmsg)
    as (entry & Hh & _ & _ & _ & _ & _ & Hout).
  exists entry. split; [exact Hh|].
  change (outcome (Sample.pool (files Sample.opened.2 !! "/data/a.db")
                     (sql_value (JStr "drop"))))
    with (@Throw Thrown EngineResult (ErrorObj "SQLITE_ERROR: syntax error")) in Hout.
  destruct Hout as (Hs & He & _). now split.
Defined.

(** C5. What the query route answers for a statement that is not a
    [select]. The statement does not reach the engine as SQL:
    [executeQuery] interpolates it into the [sql] tag, so the query sent
    is the single placeholder [?] with the statement bound to it as a
    value. When the driver rejects that query, the reply is a 500 with the
    driver's message and has neither a [changes] nor a [lastInsertId]
    member. Were the query to run, the [changes] member would be the row
    array that [query] resolved to, not the engine's change count, and no
    [lastInsertId] member would be present, because [executeQuery] hands
    back [{changes: result}] and the route reads [lastInsertRowid] from
    it. With the sample driver, ["insert into t values (1)"] is answered
    with a 500 and recorded as a failure. *)
Theorem write_reply_drops_engine_counters :
  (forall engine archive c s h info w history,
      let sql := String c s in
      let m := {| DbManager.currentDb := Some h; DbManager.currentDbInfo := Some info |} in
      let out := QueryRoute.post engine archive (Some sql) m w history in
      let sent := sql_value (JStr sql) in
      query_text sent = "?" /\
      query_values sent = [JStr sql] /\
      trace out.1.2 = (trace w ++ [EvQuery h sent])%list /\
      if DbManager.isSelect sql then True
      else
        match outcome (engine (files w !! hpath h) sent) with
        | Throw e =>
            out.1.1 = json (JObj [("error", JStr "Failed to execute query");
                                  ("details", JStr (message_or_unknown e))]) 500 /\
            Js.has_key "changes" (body out.1.1) = false /\
            Js.has_key "lastInsertId" (body out.1.1) = false
        | Ok res =>
            out.1.1 = {| status := 200;
                         body := JObj [("changes", to_json (JArr (rows res)))] |} /\
            Js.has_key "lastInsertId" (body out.1.1) = false /\
            Js.assoc "changes" [("changes", to_json (JArr (rows res)))] <> JNum (changes res)
        end) /\
  DbManager.isSelect "insert into t values (1)" = false /\
  outcome (Sample.pool (files Sample.opened.2 !! "/data/a.db")
             (sql_value (JStr "insert into t values (1)")))
  = Throw (ErrorObj "SQLITE_ERROR: syntax error") /\
  (let out := QueryRoute.post Sample.pool Sample.archive (Some "insert into t values (1)")
                Sample.opened.1.2 Sample.opened.2 [] in
   out.1.1 = json (JObj [("error", JStr "Failed to execute query");
                         ("details", JStr "SQLITE_ERROR: syntax error")]) 500 /\
   map QueryRoute.success out.2 = [false]).
Proof.
  split.
  - intros engine archive c s h info w history sql m out sent. subst out.
    split; [reflexivity|]. split; [reflexivity|].
    unfold QueryRoute.post. cbn [DbManager.isConnected DbManager.currentDb m negb].
    change (String.eqb sql "") with false. cbv iota.
    rewrite (run_and_record_open engine archive sql m w history h info eq_refl eq_refl).
    fold sent.
    destruct (outcome (engine (files w !! hpath h) sent)) as [res|e] eqn:Eo;
      cbn [fst snd].
    + split; [reflexivity|].
      destruct (DbManager.isSelect sql) eqn:Esel; [exact I|].
      repeat split. simpl. discriminate.
    + split; [reflexivity|].
      destruct (DbManager.isSelect sql) eqn:Esel; [exact I|].
      repeat split.
  - repeat split; vm_compute; reflexivity.
Qed.

(** ** Preferences *)

Section PreferenceFacts.

Import AppDb.

Lemma overwrite_key k v now r : key (overwrite k v now r) = key r.
Proof. unfold overwrite. destruct (String.eqb (key r) k); reflexivity. Qed.

Lemma map_overwrite_keys k v now (l : list UserPreference) :
  map key (map (overwrite k v now) l) = map key l.
Proof.
  induction l as [|r l IH]; simpl; [reflexivity|].
  now rewrite overwrite_key, IH.
Qed.

Lemma existsb_key_elem k (l : list UserPreference) :
  existsb (fun r => String.eqb (key r) k) l = true <-> k ∈ map key l.
Proof.
  induction l as [|r l IH]; simpl.
  - split; [discriminate | intros H; inversion H].
  - rewrite orb_true_iff, IH, String.eqb_eq, elem_of_cons. split; intros [H|H]; auto.
Qed.

Lemma filter_absent k (l : list UserPreference) :
  k ∉ map key l -> List.filter (fun r => String.eqb (key r) k) l = [].
Proof.
  induction l as [|r l IH]; simpl; intros H; [reflexivity|].
  apply not_elem_of_cons in H as [Hne Hl].
  destruct (String.eqb (key r) k) eqn:E.
  - apply String.eqb_eq in E. congruence.
  - now apply IH.
Qed.

Lemma filter_overwrite k v now (l : list UserPreference) :
  NoDup (map key l) ->
  k ∈ map key l ->
  exists i,
    List.filter (fun r => String.eqb (key r) k) (map (overwrite k v now) l)
    = [ {| id := i; key := k; value := v; updated_at := now |} ].
Proof.
  induction l as [|r l IH]; simpl; intros Hn Hin; [inversion Hin|].
  apply NoDup_cons in Hn as [Hnotin Hn].
  rewrite overwrite_key.
  destruct (String.eqb (key r) k) eqn:E.
  - unfold overwrite at 1. rewrite E.
    apply String.eqb_eq in E. subst k.
    exists (id r). f_equal. apply filter_absent. now rewrite map_overwrite_keys.
  - apply elem_of_cons in Hin as [Hin|Hin].
    + apply String.eqb_neq in E. congruence.
    + now apply IH.
Qed.

Lemma setPreference_unique k v now db :
  unique_keys db -> unique_keys (setPreference k v now db).
Proof.
  unfold unique_keys, setPreference. intros H.
  destruct (has_key k db) eqn:E; simpl.
  - now rewrite map_overwrite_keys.
  - rewrite map_app. simpl. apply NoDup_app. split; [exact H|]. split.
    + intros x Hx Hk. apply list_elem_of_singleton in Hk. subst x.
      apply existsb_key_elem in Hx. unfold has_key in E. congruence.
    + apply NoDup_singleton.
Qed.

Lemma setPreference_rows k v now db :
  unique_keys db ->
  exists i, rows_for k (setPreference k v now db)
            = [ {| id := i; key := k; value := v; updated_at := now |} ].
Proof.
  unfold unique_keys, setPreference, rows_for. intros H.
  destruct (has_key k db) eqn:E; simpl.
  - apply filter_overwrite; [exact H|]. now apply existsb_key_elem.
  - exists (user_preferences_seq db + 1).
    rewrite List.filter_app, filter_absent; simpl.
    + now rewrite String.eqb_refl.
    + intros Hin. apply existsb_key_elem in Hin. unfold has_key in E. congruence.
Qed.

Lemma setPreference_has_key k v now db : has_key k (setPreference k v now db) = true.
Proof.
  unfold has_key at 1. apply existsb_key_elem.
  unfold setPreference. destruct (has_key k db) eqn:E; simpl.
  - rewrite map_overwrite_keys. now apply existsb_key_elem.
  - rewrite map_app. simpl. apply elem_of_app. right. apply list_elem_of_singleton.
    reflexivity.
Qed.

End PreferenceFacts.

(** C8. On a table that satisfies its UNIQUE(key) constraint, writing a
    key twice leaves exactly one row for that key, holding the second
    value and the second write's time stamp; the second write adds no row,
    and the constraint still holds. *)
Theorem preference_set_twice db k v1 v2 t1 t2 (Hu : AppDb.unique_keys db) :
  let db1 := AppDb.setPreference k v1 t1 db in
  let db2 := AppDb.setPreference k v2 t2 db1 in
  (exists i, AppDb.rows_for k db2
             = [ {| AppDb.id := i; AppDb.key := k; AppDb.value := v2;
                    AppDb.updated_at := t2 |} ]) /\
  AppDb.getPreference k db2 = Some v2 /\
  length (AppDb.user_preferences db2) = length (AppDb.user_preferences db1) /\
  AppDb.unique_keys db2.
Proof.
  intros db1 db2.
  assert (Hu1 : AppDb.unique_keys db1) by now apply setPreference_unique.
  destruct (setPreference_rows k v2 t2 db1 Hu1) as [i Hi]. fold db2 in Hi.
  split; [now exists i|].
  split; [unfold AppDb.getPreference; now rewrite Hi|].
  split; [|now apply setPreference_unique].
  subst db2. unfold AppDb.setPreference at 1.
  subst db1. rewrite setPreference_has_key. simpl. now rewrite length_map.
Qed.

Lemma preference_set_twice_witness :
  AppDb.getPreference "theme"
    (AppDb.setPreference "theme" "dark" 20
       (AppDb.setPreference "theme" "light" 10
          (AppDb.setPreference "fontSize" "14" 5 AppDb.empty)))
  = Some "dark".
Proof.
  refine (proj1 (proj2 (preference_set_twice
                          (AppDb.setPreference "fontSize" "14" 5 AppDb.empty)
                          "theme" "light" "dark" 10 20 _))).
  unfold AppDb.unique_keys. simpl. apply NoDup_singleton.
Defined.

(** ** The metadata catalog *)

Section MetadataFacts.

Import MetadataModel.

Lemma find_id_fresh (i : Z) (l : list DatabaseMetadata) (r : DatabaseMetadata) :
  Forall (fun x => id x < i) l -> id r = i ->
  find (fun x => Z.eqb (id x) i) (l ++ [r]) = Some r.
Proof.
  intros Hl Hr. induction Hl as [|x l Hx _ IH]; simpl.
  - now rewrite Hr, Z.eqb_refl.
  - destruct (Z.eqb (id x) i) eqn:E; [apply Z.eqb_eq in E; lia | exact IH].
Qed.

Lemma has_path_elem p (t : Table) :
  has_path p t = true <-> p ∈ map path (table_rows t).
Proof.
  unfold has_path. induction (table_rows t) as [|r l IH]; simpl.
  - split; [discriminate | intros H; inversion H].
  - rewrite orb_true_iff, IH, String.eqb_eq, elem_of_cons.
    split; intros [H|H]; auto.
Qed.

Lemma find_path_fresh (l : list DatabaseMetadata) (r : DatabaseMetadata) :
  path r ∉ map path l ->
  find (fun x => String.eqb (path x) (path r)) (l ++ [r]) = Some r.
Proof.
  induction l as [|x l IH]; simpl; intros H.
  - now rewrite String.eqb_refl.
  - apply not_elem_of_cons in H as [Hne H].
    destruct (String.eqb (path x) (path r)) eqn:E;
      [apply String.eqb_eq in E; congruence | now apply IH].
Qed.

(** [create] either commits the whole new row or restores the table. *)
Lemma create_spec n now d :
  consistent d ->
  create n now d =
  if has_path (new_path n) (live d) then
    (Throw (ErrorObj "UNIQUE constraint failed: database_metadata.path"), d)
  else
    let r := new_row n now (table_seq (live d) + 1) in
    (Ok r, {| live := add_row r (live d); pending := None |}).
Proof.
  intros (Hp & Hids & _). destruct d as [t pend]. simpl in *. subst pend.
  unfold create, create_body, exec, insert; simpl.
  destruct (has_path (new_path n) t) eqn:E; simpl; [reflexivity|].
  unfold select_by_id; simpl.
  rewrite find_id_fresh; [reflexivity| |reflexivity].
  eapply Forall_impl; [exact Hids|]. simpl. intros; lia.
Qed.

Lemma create_consistent n now d :
  consistent d -> consistent (create n now d).2.
Proof.
  intros H. rewrite (create_spec n now d H).
  destruct (has_path (new_path n) (live d)) eqn:E; [exact H|].
  destruct H as (Hp & Hids & Hnd). unfold consistent; simpl.
  split; [reflexivity|]. split.
  - apply Forall_app. split.
    + eapply Forall_impl; [exact Hids|]. simpl. intros; lia.
    + constructor; [simpl; lia | constructor].
  - rewrite map_app. simpl. apply NoDup_app. split; [exact Hnd|]. split.
    + intros x Hx Hk. apply list_elem_of_singleton in Hk. subst x.
      apply has_path_elem in Hx. congruence.
    + apply NoDup_singleton.
Qed.

End MetadataFacts.

Section UpsertFacts.

Import AppDb.

Lemma refresh_path i now r : path (refresh i now r) = path r.
Proof. unfold refresh. destruct (String.eqb (path r) (in_path i)); reflexivity. Qed.

Lemma find_refresh i now q (l : list MetadataRow) :
  find (fun r => String.eqb (path r) q) (map (refresh i now) l)
  = refresh i now <$> find (fun r => String.eqb (path r) q) l.
Proof.
  induction l as [|r l IH]; simpl; [reflexivity|].
  rewrite refresh_path. destruct (String.eqb (path r) q); [reflexivity | exact IH].
Qed.

Lemma find_path_some q (l : list MetadataRow) r :
  find (fun r => String.eqb (path r) q) l = Some r -> path r = q.
Proof.
  intros H. apply find_some in H as [_ H]. now apply String.eqb_eq.
Qed.

Lemma find_none_has_path q db : row_for q db = None -> has_path q db = false.
Proof.
  unfold row_for, has_path. induction (database_metadata db) as [|r l IH]; simpl;
    [reflexivity|].
  destruct (String.eqb (path r) q); [discriminate | exact IH].
Qed.

Lemma find_some_has_path q db r : row_for q db = Some r -> has_path q db = true.
Proof.
  unfold row_for, has_path. induction (database_metadata db) as [|x l IH]; simpl;
    [discriminate|].
  destruct (String.eqb (path x) q); [reflexivity | exact IH].
Qed.

Lemma find_app_last q (l : list MetadataRow) r :
  find (fun r => String.eqb (path r) q) (l ++ [r])
  = match find (fun r => String.eqb (path r) q) l with
    | Some x => Some x
    | None => if String.eqb (path r) q then Some r else None
    end.
Proof.
  induction l as [|x l IH]; simpl; [reflexivity|].
  destruct (String.eqb (path x) q); [reflexivity | exact IH].
Qed.

(** The upsert, seen through the row stored for a path. *)
Lemma updateDatabaseMetadata_spec i now db :
  let db' := updateDatabaseMetadata i now db in
  match row_for (in_path i) db with
  | None =>
      row_for (in_path i) db'
      = Some {| row_id := database_metadata_seq db + 1; name := in_name i;
                path := in_path i; size := in_size i;
                table_count := in_table_count i; last_accessed := now;
                is_favorite := in_is_favorite i; notes := in_notes i |} /\
      length (database_metadata db') = S (length (database_metadata db))
  | Some old =>
      row_for (in_path i) db'
      = Some {| row_id := row_id old; name := in_name i; path := in_path i;
                size := in_size i; table_count := in_table_count i;
                last_accessed := now;
                is_favorite := coalesce (in_is_favorite i) (is_favorite old);
                notes := coalesce (in_notes i) (notes old) |} /\
      length (database_metadata db') = length (database_metadata db)
  end /\
  (forall q, q <> in_path i -> row_for q db' = row_for q db).
Proof.
  intros db'. subst db'. unfold updateDatabaseMetadata.
  destruct (row_for (in_path i) db) as [old|] eqn:E.
  - rewrite (find_some_has_path _ _ _ E). unfold row_for in *; simpl.
    split; [split|].
    + rewrite find_refresh, E. simpl. unfold refresh.
      pose proof (find_path_some _ _ _ E) as Hp. rewrite Hp, String.eqb_refl.
      reflexivity.
    + now rewrite length_map.
    + intros q Hq. rewrite find_refresh.
      destruct (find (fun r => String.eqb (path r) q) (database_metadata db)) as [x|] eqn:F;
        [|reflexivity].
      simpl. unfold refresh. pose proof (find_path_some _ _ _ F) as Hp.
      destruct (String.eqb (path x) (in_path i)) eqn:G; [|reflexivity].
      apply String.eqb_eq in G. congruence.
  - rewrite (find_none_has_path _ _ E). unfold row_for in *; simpl.
    split; [split|].
    + rewrite find_app_last, E. simpl. now rewrite String.eqb_refl.
    + rewrite length_app. simpl. lia.
    + intros q Hq. rewrite find_app_last. simpl.
      destruct (find (fun r => String.eqb (path r) q) (database_metadata db));
        [reflexivity|].
      destruct (String.eqb (in_path i) q) eqn:G; [|reflexivity].
      apply String.eqb_eq in G. congruence.
Qed.

End UpsertFacts.

(** C3, as the code has it. The record of an uploaded file is registered
    by [DatabaseMetadataModel.create], a transactional insert: when no row
    has the path, the new row is stored, returned and found under its path;
    when a row has it, the call throws the UNIQUE-constraint error and the
    table is exactly as before. Either way no transaction stays pending and
    the table stays consistent. The upsert keyed by path is
    [AppDatabase.updateDatabaseMetadata]: a new path gets a new row, a known
    path has its row's name, size, table_count and last_accessed replaced
    while is_favorite and notes are kept unless supplied; rows of other
    paths are untouched. *)
Theorem registration_insert_and_upsert n now d i t db
    (Hd : MetadataModel.consistent d) :
  (if MetadataModel.has_path (MetadataModel.new_path n) (MetadataModel.live d) then
     MetadataModel.create n now d
     = (Throw (ErrorObj "UNIQUE constraint failed: database_metadata.path"), d)
   else
     let r := MetadataModel.new_row n now (MetadataModel.table_seq (MetadataModel.live d) + 1) in
     let d' := (MetadataModel.create n now d).2 in
     (MetadataModel.create n now d).1 = Ok r /\
     MetadataModel.table_rows (MetadataModel.live d')
     = (MetadataModel.table_rows (MetadataModel.live d) ++ [r])%list /\
     MetadataModel.findByPath (MetadataModel.new_path n) d' = Some r) /\
  MetadataModel.consistent (MetadataModel.create n now d).2 /\
  (let db' := AppDb.updateDatabaseMetadata i t db in
   match AppDb.row_for (AppDb.in_path i) db with
   | None =>
       AppDb.row_for (AppDb.in_path i) db'
       = Some {| AppDb.row_id := AppDb.database_metadata_seq db + 1;
                 AppDb.name := AppDb.in_name i; AppDb.path := AppDb.in_path i;
                 AppDb.size := AppDb.in_size i;
                 AppDb.table_count := AppDb.in_table_count i;
                 AppDb.last_accessed := t;
                 AppDb.is_favorite := AppDb.in_is_favorite i;
                 AppDb.notes := AppDb.in_notes i |} /\
       length (AppDb.database_metadata db') = S (length (AppDb.database_metadata db))
   | Some old =>
       AppDb.row_for (AppDb.in_path i) db'
       = Some {| AppDb.row_id := AppDb.row_id old; AppDb.name := AppDb.in_name i;
                 AppDb.path := AppDb.in_path i; AppDb.size := AppDb.in_size i;
                 AppDb.table_count := AppDb.in_table_count i;
                 AppDb.last_accessed := t;
                 AppDb.is_favorite :=
                   AppDb.coalesce (AppDb.in_is_favorite i) (AppDb.is_favorite old);
                 AppDb.notes := AppDb.coalesce (AppDb.in_notes i) (AppDb.notes old) |} /\
       length (AppDb.database_metadata db') = length (AppDb.database_metadata db)
   end /\
   (forall q, q <> AppDb.in_path i -> AppDb.row_for q db' = AppDb.row_for q db)).
Proof.
  split; [|split; [now apply create_consistent | apply updateDatabaseMetadata_spec]].
  rewrite (create_spec n now d Hd).
  destruct (MetadataModel.has_path (MetadataModel.new_path n) (MetadataModel.live d)) eqn:E;
    [reflexivity|].
  cbn zeta. cbn [fst snd MetadataModel.live MetadataModel.add_row MetadataModel.table_rows].
  split; [reflexivity|]. split; [reflexivity|].
  unfold MetadataModel.findByPath, MetadataModel.select_by_path.
  cbn [MetadataModel.live MetadataModel.add_row MetadataModel.table_rows].
  apply (find_path_fresh (MetadataModel.table_rows (MetadataModel.live d))
           (MetadataModel.new_row n now (MetadataModel.table_seq (MetadataModel.live d) + 1))).
  cbn [MetadataModel.new_row MetadataModel.path].
  intros Hin. apply has_path_elem in Hin. congruence.
Qed.

Lemma registration_insert_and_upsert_witness :
  MetadataModel.consistent MetadataModel.empty /\
  MetadataModel.findByPath "/srv/storage/databases/1000-a.db" Sample.registered
  = Some (MetadataModel.new_row Sample.registration 1007 1).
Proof.
  assert (H : MetadataModel.consistent MetadataModel.empty).
  { unfold MetadataModel.consistent; simpl. repeat split; constructor. }
  split; [exact H|].
  exact (proj2 (proj2 (proj1 (registration_insert_and_upsert Sample.registration 1007
                                MetadataModel.empty Sample.upsert_input 0 AppDb.empty H)))).
Defined.

(** C3, as stated, fails: registering a second record under a path that
    is already in the catalog does not update the stored row. [create]
    throws, the size on record stays 16, and at the route a second upload
    of the same name within the same millisecond is answered with a 500
    while the catalog is left as the first upload made it. *)
Lemma registration_rejects_known_path :
  MetadataModel.create Sample.registration_again 2000 Sample.registered
  = (Throw (ErrorObj "UNIQUE constraint failed: database_metadata.path"), Sample.registered) /\
  ~ (exists r,
        MetadataModel.findByPath "/srv/storage/databases/1000-a.db"
          (MetadataModel.create Sample.registration_again 2000 Sample.registered).2 = Some r /\
        MetadataModel.size r = 4096) /\
  (let first := Upload.upload Sample.engine Sample.storageDir Sample.toLocaleString
                  (Some Sample.db_named) Sample.world MetadataModel.empty in
   let second := Upload.upload Sample.engine Sample.storageDir Sample.toLocaleString
                   (Some Sample.db_named_again) Sample.world first.2 in
   status first.1.1 = 200 /\ status second.1.1 = 500 /\ second.2 = first.2).
Proof.
  split; [vm_compute; reflexivity|]. split.
  - intros (r & Hr & Hs). vm_compute in Hr. injection Hr as Hr. subst r.
    vm_compute in Hs. discriminate Hs.
  - vm_compute. repeat split; reflexivity.
Qed.

(** ** The upload route and the drop zone *)

Section UploadFacts.

Import MetadataModel Upload.

Variable engine : option (list byte) -> string -> EngineReply.
Variable storageDir : string.
Variable toLocaleString : Z -> string.

Lemma stored_lookup p b w : files (write_file p (Some b) w) !! p = Some b.
Proof. simpl. apply lookup_insert_eq. Qed.

Lemma all_clock_files p sql w :
  (all engine p sql w).1 =
  match outcome (engine (files w !! p) sql) with
  | Ok res => Ok (rows res)
  | Throw e => Throw e
  end.
Proof. reflexivity. Qed.

Lemma onDrop_selected onFileSelect f rest :
  has_db_extension f = true -> selected (onDrop onFileSelect (f :: rest)) = [f].
Proof.
  intros H. unfold onDrop. rewrite H.
  destruct (onFileSelect f) as [[]|[m|v]]; reflexivity.
Qed.

Lemma upload_stored f w d :
  let p := storagePath_of storageDir f w in
  let out := upload engine storageDir toLocaleString (Some f) w d in
  consistent d ->
  has_path p (live d) = false ->
  match outcome (engine (Some (file_bytes f)) catalog_sql) with
  | Ok res =>
      status out.1.1 = 200 /\
      exists r,
        findByPath p out.2 = Some r /\ name r = file_name f /\
        size r = Z.of_nat (length (file_bytes f)) /\
        table_count r = Z.of_nat (length (rows res)) /\ is_favorite r = 0
  | Throw e =>
      status out.1.1 = 500 /\ files out.1.2 !! p = Some [] /\ out.2 = d
  end.
Proof.
  intros p out Hd Hfresh. subst out. unfold upload. fold p.
  rewrite stored_lookup.
  destruct (all engine p catalog_sql (write_file p (Some (file_bytes f)) w)) as [r w2] eqn:Ea.
  pose proof (all_clock_files p catalog_sql (write_file p (Some (file_bytes f)) w)) as Hr.
  rewrite Ea, stored_lookup in Hr. cbn [fst] in Hr. subst r.
  destruct (outcome (engine (Some (file_bytes f)) catalog_sql)) as [res|e].
  - rewrite (create_spec _ _ d Hd). cbn [new_path]. rewrite Hfresh.
    cbn zeta. cbn [fst snd]. split; [reflexivity|].
    eexists. split.
    + unfold findByPath, select_by_path. cbn [live add_row table_rows].
      match goal with
      | |- find _ (?l ++ [?r]) = _ => apply (find_path_fresh l r)
      end.
      cbn [new_row path new_path]. intros Hin. apply has_path_elem in Hin. congruence.
    + repeat split; reflexivity.
  - unfold upload_failed. cbn [fst snd]. split; [reflexivity|]. split; [|reflexivity].
    apply stored_lookup.
Qed.

End UploadFacts.

(** C4, as the code has it. The check on the file name is the drop
    zone's: a dropped file whose name does not end in [.db] is answered
    with an error toast and never handed on, one that does is handed on.
    The upload route looks at no extension: it stores the bytes first and
    validates them by opening the stored file, so bytes the engine accepts
    are registered under whatever name they came with, and bytes it
    rejects give a 500 after the stored file has been emptied. *)
Theorem extension_checked_by_drop_zone_only
    onFileSelect engine storageDir toLocaleString f rest w d
    (Hd : MetadataModel.consistent d)
    (Hfresh : MetadataModel.has_path (Upload.storagePath_of storageDir f w)
                (MetadataModel.live d) = false) :
  (if Upload.has_db_extension f
   then Upload.selected (Upload.onDrop onFileSelect (f :: rest)) = [f]
   else Upload.onDrop onFileSelect (f :: rest) = [Upload.invalid_file_toast]) /\
  Upload.onDrop onFileSelect [] = [Upload.invalid_file_toast] /\
  (let p := Upload.storagePath_of storageDir f w in
   let out := Upload.upload engine storageDir toLocaleString (Some f) w d in
   match outcome (engine (Some (Upload.file_bytes f)) Upload.catalog_sql) with
   | Ok res =>
       status out.1.1 = 200 /\
       exists r,
         MetadataModel.findByPath p out.2 = Some r /\
         MetadataModel.name r = Upload.file_name f /\
         MetadataModel.size r = Z.of_nat (length (Upload.file_bytes f)) /\
         MetadataModel.table_count r = Z.of_nat (length (rows res)) /\
         MetadataModel.is_favorite r = 0
   | Throw e =>
       status out.1.1 = 500 /\ files out.1.2 !! p = Some [] /\ out.2 = d
   end).
Proof.
  split; [|split; [reflexivity | now apply upload_stored]].
  destruct (Upload.has_db_extension f) eqn:E.
  - now apply onDrop_selected.
  - unfold Upload.onDrop. now rewrite E.
Qed.

Lemma extension_checked_by_drop_zone_only_witness :
  MetadataModel.consistent MetadataModel.empty /\
  status (Upload.upload Sample.engine Sample.storageDir Sample.toLocaleString
            (Some Sample.text_named) Sample.world MetadataModel.empty).1.1 = 200.
Proof.
  assert (H : MetadataModel.consistent MetadataModel.empty).
  { unfold MetadataModel.consistent; simpl. repeat split; constructor. }
  split; [exact H|].
  exact (proj1 (proj2 (proj2 (extension_checked_by_drop_zone_only
                                Sample.onFileSelect Sample.engine Sample.storageDir
                                Sample.toLocaleString Sample.text_named [] Sample.world
                                MetadataModel.empty H eq_refl)))).
Defined.

(** C4, as stated, fails at the route: a valid database uploaded as
    [notes.txt] is not rejected; its bytes are on storage and the reply is
    a 200. *)
Lemma upload_accepts_other_extension :
  Upload.has_db_extension Sample.text_named = false /\
  (let out := Upload.upload Sample.engine Sample.storageDir Sample.toLocaleString
                (Some Sample.text_named) Sample.world MetadataModel.empty in
   status out.1.1 = 200 /\
   files out.1.2 !! "/srv/storage/databases/1000-notes.txt" = Some Sample.header /\
   MetadataModel.name <$> MetadataModel.findByPath "/srv/storage/databases/1000-notes.txt" out.2
   = Some "notes.txt").
Proof. vm_compute. repeat split; reflexivity. Qed.

(** ** Failed opens *)

Section FailedLoad.

Import DbManager.

Variable engine : option (list byte) -> SQLQuery -> EngineReply.

Lemma close_files m w : files (closeCurrentDatabase m w).2 = files w.
Proof. unfold closeCurrentDatabase. destruct (currentDb m); reflexivity. Qed.

Lemma query_files h q w :
  files (query engine h q w).2 !! hpath h = file_after (engine (files w !! hpath h) q).
Proof.
  unfold query; simpl.
  destruct (file_after (engine (files w !! hpath h) q));
    [apply lookup_insert_eq | apply lookup_delete_eq].
Qed.

Lemma cleanup_removes p w :
  files (loadDatabase_cleanup p w) !! p = None /\
  match files w !! p with
  | Some _ => trace (loadDatabase_cleanup p w) = (trace w ++ [EvUnlink p])%list
  | None => loadDatabase_cleanup p w = w
  end.
Proof.
  unfold loadDatabase_cleanup. destruct (files w !! p) eqn:E; simpl.
  - split; [apply lookup_delete_eq | reflexivity].
  - split; [exact E | reflexivity].
Qed.

(** [loadDatabase] by cases on how it ends. *)
Lemma load_cases filePath originalName m w :
  let closed := closeCurrentDatabase m w in
  let h := {| hid := next_handle closed.2; hpath := filePath |} in
  let w3 := (query engine h (sql_text tables_sql)
               (createConnectionPool filePath closed.2).2).2 in
  let out := loadDatabase engine filePath originalName m w in
  match out.1.1 with
  | Throw _ =>
      out.2 = loadDatabase_cleanup filePath w3 /\
      out.1.2 = {| currentDb := Some h; currentDbInfo := currentDbInfo closed.1 |}
  | Ok info => out.2 = w3 /\ currentDbInfo out.1.2 = Some info
  end.
Proof.
  intros closed h w3 out. subst out w3 h. unfold loadDatabase.
  fold closed. destruct closed as [m1 w1]. cbn [fst snd].
  unfold createConnectionPool. cbn [fst snd].
  destruct (query engine _ (sql_text tables_sql) _) as [r w3]. cbn [fst snd].
  destruct r as [res|e]; [|now split].
  destruct (names (rows res)); [|now split].
  destruct (files w3 !! filePath); now split.
Qed.

(** The world after the catalog query of [loadDatabase], and what
    [loadDatabase] makes of the engine's reply to it: the first failure
    among the query, the reading of the names and the [statSync] goes
    through the [catch] clause. *)
Lemma load_by_reply filePath originalName m w :
  let closed := (closeCurrentDatabase m w).2 in
  let h := {| hid := next_handle closed; hpath := filePath |} in
  let q := sql_text tables_sql in
  let reply := engine (files w !! filePath) q in
  let w3 := (query engine h q (createConnectionPool filePath closed).2).2 in
  let out := loadDatabase engine filePath originalName m w in
  files w3 !! filePath = file_after reply /\
  trace w3 = (trace closed ++ [EvOpen h; EvQuery h q])%list /\
  match outcome reply with
  | Throw e => out.1.1 = Throw e /\ out.2 = loadDatabase_cleanup filePath w3
  | Ok res =>
      match names (rows res) with
      | Throw e => out.1.1 = Throw e /\ out.2 = loadDatabase_cleanup filePath w3
      | Ok tbls =>
          match file_after reply with
          | None =>
              out.1.1 = Throw (ErrorObj ("ENOENT: no such file or directory, stat '"
                                         ++ filePath ++ "'")) /\
              out.2 = loadDatabase_cleanup filePath w3
          | Some _ => (exists info, out.1.1 = Ok info) /\ out.2 = w3
          end
      end
  end.
Proof.
  intros closed h q reply w3 out.
  assert (Hf : files w3 !! filePath = file_after reply).
  { subst w3. pose proof (query_files h q (createConnectionPool filePath closed).2) as Q.
    change (hpath h) with filePath in Q. rewrite Q.
    subst reply closed. unfold createConnectionPool. cbn [snd log files].
    now rewrite close_files. }
  assert (Hr : (query engine h q (createConnectionPool filePath closed).2).1 = outcome reply).
  { unfold query. cbn [fst]. change (hpath h) with filePath.
    subst reply closed. unfold createConnectionPool. cbn [snd log files].
    now rewrite close_files. }
  split; [exact Hf|]. split.
  { subst w3. unfold query, createConnectionPool. cbn [snd tick write_file log trace].
    now rewrite <- app_assoc. }
  subst out. unfold loadDatabase.
  fold closed. destruct (closeCurrentDatabase m w) as [m1 w1]. cbn [snd] in closed.
  subst closed. fold h. change (createConnectionPool filePath w1)
    with (h, (createConnectionPool filePath w1).2).
  cbv iota beta. fold q.
  destruct (query engine h q (createConnectionPool filePath w1).2) as [r w'] eqn:Eq.
  cbn [fst snd] in Hr, w3. subst w3 r.
  destruct (outcome reply) as [res|e]; [|now split].
  destruct (names (rows res)) as [tbls|e]; [|now split].
  rewrite Hf. destruct (file_after reply); [|now split].
  split; [eexists; reflexivity | reflexivity].
Qed.

End FailedLoad.

(** C10. Every failure inside the [try] block of [loadDatabase] ends in
    the [catch] clause: when the catalog query throws, when a row's name
    cannot be read, or when the file is gone by the time of [statSync],
    [loadDatabase] re-raises that same error and no file is left at
    [filePath]. If the file was there after the engine's attempt, the
    [unlink] is the last thing done before re-raising; if it was not,
    nothing is unlinked. When none of the three fails, [loadDatabase]
    returns a summary and the file stays where the engine left it. *)
Theorem failed_load_unlinks_file engine filePath originalName m w :
  let closed := (DbManager.closeCurrentDatabase m w).2 in
  let h := {| hid := next_handle closed; hpath := filePath |} in
  let q := sql_text DbManager.tables_sql in
  let reply := engine (files w !! filePath) q in
  let out := DbManager.loadDatabase engine filePath originalName m w in
  let attempt := (trace closed ++ [EvOpen h; EvQuery h q])%list in
  let failed (e : Thrown) :=
    out.1.1 = Throw e /\
    files out.2 !! filePath = None /\
    trace out.2 = match file_after reply with
                  | Some _ => (attempt ++ [EvUnlink filePath])%list
                  | None => attempt
                  end in
  match outcome reply with
  | Throw e => failed e
  | Ok res =>
      match DbManager.names (rows res) with
      | Throw e => failed e
      | Ok tbls =>
          match file_after reply with
          | None =>
              failed (ErrorObj ("ENOENT: no such file or directory, stat '"
                                ++ filePath ++ "'"))
          | Some bytes =>
              (exists info, out.1.1 = Ok info) /\
              files out.2 !! filePath = Some bytes /\
              trace out.2 = attempt
          end
      end
  end.
Proof.
  intros closed h q reply out attempt failed.
  pose proof (load_by_reply engine filePath originalName m w) as H. cbv zeta in H.
  fold closed h q reply out in H. destruct H as (Hf & Ht & H).
  set (w3 := (DbManager.query engine h q
                (DbManager.createConnectionPool filePath closed).2).2) in *.
  fold attempt in Ht.
  assert (Hfail : forall e, out.1.1 = Throw e ->
                            out.2 = DbManager.loadDatabase_cleanup filePath w3 -> failed e).
  { intros e He Hw. subst failed. cbv beta. split; [exact He|]. rewrite Hw.
    destruct (cleanup_removes filePath w3) as [Hn Hc]. split; [exact Hn|].
    rewrite Hf in Hc. destruct (file_after reply).
    - now rewrite Hc, Ht.
    - now rewrite Hc. }
  destruct (outcome reply) as [res|e]; [|now apply Hfail].
  destruct (DbManager.names (rows res)) as [tbls|e]; [|now apply Hfail].
  destruct (file_after reply) as [bytes|] eqn:Ea.
  - destruct H as [Hi Hw]. split; [exact Hi|]. rewrite Hw. now split.
  - destruct H as [He Hw]. now apply Hfail.
Qed.

(** C9. A [loadDatabase] that throws leaves the manager holding the new
    pool without a summary: from the initial state, [isConnected] answers
    [true] while [getCurrentDatabaseInfo] throws. With the sample engine
    this is what opening a text file does, and a [POST /query] in that
    state is answered with a 500 and writes no history. *)
Theorem failed_load_keeps_handle_without_summary :
  (forall engine filePath originalName w,
      let out := DbManager.loadDatabase engine filePath originalName DbManager.initial w in
      match out.1.1 with
      | Throw _ =>
          DbManager.isConnected out.1.2 = true /\
          DbManager.getCurrentDatabaseInfo out.1.2 = Throw DbManager.no_database
      | Ok info =>
          DbManager.isConnected out.1.2 = true /\
          DbManager.getCurrentDatabaseInfo out.1.2 = Ok info
      end) /\
  (let out := DbManager.loadDatabase Sample.pool "/data/notes.txt" "notes.txt"
                DbManager.initial Sample.world in
   out.1.1 = Throw (ErrorObj "SQLITE_NOTADB: file is not a database") /\
   DbManager.isConnected out.1.2 = true /\
   DbManager.getCurrentDatabaseInfo out.1.2 = Throw DbManager.no_database /\
   (let reply := QueryRoute.post Sample.pool Sample.archive (Some "select 1")
                   out.1.2 out.2 [] in
    status reply.1.1 = 500 /\ reply.2 = [])).
Proof.
  split.
  - intros engine filePath originalName w out.
    pose proof (load_cases engine filePath originalName DbManager.initial w) as H.
    pose proof (load_shape engine filePath originalName DbManager.initial w) as S.
    cbv zeta in H, S. fold out in H, S.
    destruct S as (Hdb & _).
    unfold DbManager.isConnected, DbManager.getCurrentDatabaseInfo. rewrite Hdb.
    destruct (out.1.1) as [info|e].
    + destruct H as [_ H]. now rewrite H.
    + destruct H as [_ H]. now rewrite H.
  - vm_compute. repeat split; reflexivity.
Qed.

(** * Further properties *)

(** ** The connection manager, continued *)

(** X1. [closeCurrentDatabase] is idempotent: a second close changes
    neither the manager nor the world (no second [dispose]). *)
Theorem close_idempotent m w :
  DbManager.closeCurrentDatabase (DbManager.closeCurrentDatabase m w).1
    (DbManager.closeCurrentDatabase m w).2
  = DbManager.closeCurrentDatabase m w.
Proof.
  unfold DbManager.closeCurrentDatabase.
  destruct (DbManager.currentDb m) as [h|] eqn:E; simpl; [reflexivity|].
  now rewrite E.
Qed.

Lemma close_clock m w : clock (DbManager.closeCurrentDatabase m w).2 = clock w.
Proof. unfold DbManager.closeCurrentDatabase. destruct (DbManager.currentDb m); reflexivity. Qed.

(** X2. [loadDatabase] returns exactly when the catalog query succeeds,
    every row has a readable [name] and the file is still there after the
    engine's call; the summary then holds the arguments, the byte size of
    that file, the rows' names in order and the time after the query.
    Otherwise it throws the first of these failures. *)
Theorem load_returns_summary engine filePath originalName m w :
  let reply := engine (files w !! filePath) (sql_text DbManager.tables_sql) in
  (DbManager.loadDatabase engine filePath originalName m w).1.1 =
  match outcome reply with
  | Throw e => Throw e
  | Ok res =>
      match DbManager.names (rows res) with
      | Throw e => Throw e
      | Ok tbls =>
          match file_after reply with
          | None =>
              Throw (ErrorObj ("ENOENT: no such file or directory, stat '" ++ filePath ++ "'"))
          | Some bytes =>
              Ok {| DbManager.path := filePath; DbManager.name := originalName;
                    DbManager.size := Z.of_nat (length bytes); DbManager.tables := tbls;
                    DbManager.lastAccessed := clock w + elapsed_ms reply |}
          end
      end
  end.
Proof.
  intros reply. unfold DbManager.loadDatabase.
  pose proof (close_files m w) as Hf. pose proof (close_clock m w) as Hc.
  destruct (DbManager.closeCurrentDatabase m w) as [m1 w1]. cbn [snd] in Hf, Hc.
  unfold DbManager.createConnectionPool.
  set (h := {| hid := next_handle w1; hpath := filePath |}).
  set (w2 := log (EvOpen h) _).
  pose proof (query_files engine h (sql_text DbManager.tables_sql) w2) as Hq.
  assert (Hr : (DbManager.query engine h (sql_text DbManager.tables_sql) w2).1 = outcome reply).
  { unfold DbManager.query. cbn [fst]. change (hpath h) with filePath.
    subst w2 reply. cbn [log files]. now rewrite Hf. }
  assert (Hk : clock (DbManager.query engine h (sql_text DbManager.tables_sql) w2).2
               = clock w + elapsed_ms reply).
  { unfold DbManager.query. change (hpath h) with filePath.
    subst w2 reply. cbn [snd tick clock write_file log files]. now rewrite Hf, Hc. }
  assert (Hq' : files (DbManager.query engine h (sql_text DbManager.tables_sql) w2).2 !! filePath
                = file_after reply).
  { change (hpath h) with filePath in Hq. rewrite Hq.
    subst w2 reply. cbn [log files]. now rewrite Hf. }
  destruct (DbManager.query engine h (sql_text DbManager.tables_sql) w2) as [r w3].
  cbn [fst snd] in Hr, Hk, Hq'.
  subst r. destruct (outcome reply) as [res|e]; [|reflexivity].
  destruct (DbManager.names (rows res)) as [tbls|e]; [|reflexivity].
  rewrite Hq'. destruct (file_after reply); [|reflexivity].
  cbn [fst]. now rewrite Hk.
Qed.

(** X4. One request to the query route calls the engine at most once,
    and only when the manager holds both a pool and a summary and the body
    carries a non-empty statement; in every other case (not connected,
    pool without summary, no statement) the trace is as before. No pool is
    opened or disposed, and the history grows by at most one entry. *)
Theorem query_route_engine_calls engine archive sql m w history :
  let out := QueryRoute.post engine archive sql m w history in
  trace out.1.2 =
    (trace w ++
     match DbManager.currentDb m, DbManager.currentDbInfo m, sql with
     | Some h, Some _, Some (String c s) => [EvQuery h (sql_value (JStr (String c s)))]
     | _, _, _ => []
     end)%list /\
  open_pools out.1.2 = open_pools w /\
  (length history <= length out.2 <= S (length history))%nat.
Proof.
  intros out. subst out. unfold QueryRoute.post, DbManager.isConnected.
  assert (Hidle : forall r : Response,
             trace (r, w, history).1.2 = (trace w ++ [])%list /\
             open_pools (r, w, history).1.2 = open_pools w /\
             (length history <= length (r, w, history).2 <= S (length history))%nat).
  { intros r. cbn [fst snd]. rewrite app_nil_r. repeat split; lia. }
  destruct (DbManager.currentDb m) as [h|] eqn:Edb; cbn [negb]; [|apply Hidle].
  destruct sql as [[|c s]|]; cbn [String.eqb];
    [destruct (DbManager.currentDbInfo m); apply Hidle| |
     destruct (DbManager.currentDbInfo m); apply Hidle].
  destruct (DbManager.currentDbInfo m) as [info|] eqn:Einfo.
  - rewrite (run_and_record_open engine archive _ m w history h info Edb Einfo).
    destruct (outcome (engine (files w !! hpath h) (sql_value (JStr (String c s)))));
      cbn [fst snd]; rewrite length_app; cbn [length];
      (split; [reflexivity|split; [reflexivity|lia]]).
  - unfold QueryRoute.run_and_record, QueryRoute.attempt, DbManager.getCurrentDatabaseInfo.
    rewrite Einfo. apply Hidle.
Qed.

(** ** The metadata catalog, continued *)

Section QueriesFacts.

Import MetadataModel MetadataQueries.

Lemma updated_row_id p now r r' : updated_row p now r = Some r' -> id r' = id r.
Proof.
  unfold updated_row. intros H.
  destruct (assign (p_name p) (name r)), (assign (p_path p) (path r)),
    (assign (p_size p) (size r)), (assign (p_table_count p) (table_count r));
    try discriminate.
  now inversion H.
Qed.

Lemma updated_row_stamp p now r r' :
  updated_row p now r = Some r' -> last_accessed r' = now /\ created_at r' = created_at r.
Proof.
  unfold updated_row. intros H.
  destruct (assign (p_name p) (name r)), (assign (p_path p) (path r)),
    (assign (p_size p) (size r)), (assign (p_table_count p) (table_count r));
    try discriminate.
  inversion H. now split.
Qed.

(** Looking up an id in the rows an UPDATE leaves. *)
Lemma update_rows_find i p now table rows rows' j :
  update_rows i p now table rows = Some rows' ->
  find (fun r => Z.eqb (id r) j) rows' =
  if Z.eqb j i
  then match find (fun r => Z.eqb (id r) j) rows with
       | Some r => updated_row p now r
       | None => None
       end
  else find (fun r => Z.eqb (id r) j) rows.
Proof.
  revert rows'. induction rows as [|x rest IH]; intros rows' H; simpl in H.
  - inversion H. simpl. now destruct (Z.eqb j i).
  - destruct (Z.eqb (id x) i) eqn:Ex.
    + destruct (updated_row p now x) as [x'|] eqn:Eu; [|discriminate].
      destruct (path_taken_by_other i (path x') table); [discriminate|].
      destruct (update_rows i p now table rest) as [rest'|]; [|discriminate].
      inversion H; subst rows'. simpl.
      rewrite (updated_row_id _ _ _ _ Eu). apply Z.eqb_eq in Ex.
      destruct (Z.eqb (id x) j) eqn:Ej.
      * apply Z.eqb_eq in Ej. assert (Hji : j = i) by congruence.
        subst j. now rewrite Hji, Z.eqb_refl.
      * now apply IH.
    + destruct (update_rows i p now table rest) as [rest'|]; [|discriminate].
      inversion H; subst rows'. simpl.
      destruct (Z.eqb (id x) j) eqn:Ej.
      * apply Z.eqb_eq in Ej. apply Z.eqb_neq in Ex.
        destruct (Z.eqb j i) eqn:Eji; [apply Z.eqb_eq in Eji; congruence | reflexivity].
      * now apply IH.
Qed.

Lemma update_rows_found i p now table rows rows' r :
  update_rows i p now table rows = Some rows' ->
  find (fun r => Z.eqb (id r) i) rows = Some r ->
  exists r', updated_row p now r = Some r' /\ path_taken_by_other i (path r') table = false.
Proof.
  revert rows'. induction rows as [|x rest IH]; intros rows' H Hf; simpl in H, Hf;
    [discriminate|].
  destruct (Z.eqb (id x) i) eqn:Ex.
  - inversion Hf; subst x.
    destruct (updated_row p now r) as [x'|]; [|discriminate].
    destruct (path_taken_by_other i (path x') table) eqn:Et; [discriminate|].
    now exists x'.
  - destruct (update_rows i p now table rest) as [rest'|]; [|discriminate].
    now apply (IH rest').
Qed.

Lemma taken_false i q (rows : Datatypes.list DatabaseMetadata) :
  path_taken_by_other i q rows = false <->
  (forall y, y ∈ rows -> id y <> i -> path y <> q).
Proof.
  unfold path_taken_by_other. induction rows as [|x rest IH]; simpl.
  - split; [intros _ y Hy; inversion Hy | reflexivity].
  - rewrite orb_false_iff, IH. split.
    + intros [Hx Hr] y Hy Hi. apply elem_of_cons in Hy as [->|Hy]; [|now apply Hr].
      apply andb_false_iff in Hx as [Hx|Hx].
      * apply negb_false_iff, Z.eqb_eq in Hx. contradiction.
      * now apply String.eqb_neq in Hx.
    + intros H. split.
      * destruct (Z.eqb (id x) i) eqn:E; [reflexivity|]. simpl.
        apply String.eqb_neq. apply H; [left | now apply Z.eqb_neq].
      * intros y Hy. apply H. now right.
Qed.

Lemma update_rows_no_match i p now table (rows : Datatypes.list DatabaseMetadata) :
  (forall x, x ∈ rows -> id x <> i) -> update_rows i p now table rows = Some rows.
Proof.
  induction rows as [|x rest IH]; intros H; simpl; [reflexivity|].
  assert (Hx : Z.eqb (id x) i = false) by (apply Z.eqb_neq, H; left).
  rewrite Hx, IH; [reflexivity|]. intros y Hy. apply H. now right.
Qed.

Lemma replace_no_match i r' (rows : Datatypes.list DatabaseMetadata) :
  (forall x, x ∈ rows -> id x <> i) -> map (replace_id i r') rows = rows.
Proof.
  induction rows as [|x rest IH]; intros H; simpl; [reflexivity|].
  unfold replace_id at 1.
  assert (Hx : Z.eqb (id x) i = false) by (apply Z.eqb_neq, H; left).
  rewrite Hx, IH; [reflexivity|]. intros y Hy. apply H. now right.
Qed.

Lemma no_match_in_tail x (rest : Datatypes.list DatabaseMetadata) :
  NoDup (map id (x :: rest)) -> forall y, y ∈ rest -> id y <> id x.
Proof.
  simpl. intros Hn y Hy Heq. apply NoDup_cons in Hn as [Hx _].
  apply Hx. rewrite <- Heq. now apply list_elem_of_fmap_2.
Qed.

Lemma update_rows_unique i p now table (rows : Datatypes.list DatabaseMetadata) r r' :
  NoDup (map id rows) ->
  find (fun x => Z.eqb (id x) i) rows = Some r ->
  updated_row p now r = Some r' ->
  path_taken_by_other i (path r') table = false ->
  update_rows i p now table rows = Some (map (replace_id i r') rows).
Proof.
  intros Hn Hf Hr Ht. induction rows as [|x rest IH]; simpl in *; [discriminate|].
  unfold replace_id at 1.
  destruct (Z.eqb (id x) i) eqn:Ex.
  - inversion Hf; subst x. rewrite Hr, Ht. apply Z.eqb_eq in Ex.
    pose proof (no_match_in_tail r rest Hn) as Hrest. rewrite Ex in Hrest.
    now rewrite (update_rows_no_match _ _ _ _ _ Hrest), (replace_no_match _ _ _ Hrest).
  - apply NoDup_cons in Hn as [_ Hn]. now rewrite (IH Hn Hf).
Qed.

Lemma replace_ids i r' (rows : Datatypes.list DatabaseMetadata) :
  id r' = i -> map id (map (replace_id i r') rows) = map id rows.
Proof.
  intros Hi. induction rows as [|x rest IH]; simpl; [reflexivity|].
  rewrite IH. f_equal. unfold replace_id.
  destruct (Z.eqb (id x) i) eqn:E; [apply Z.eqb_eq in E; congruence | reflexivity].
Qed.

Lemma replace_paths i r' (rows : Datatypes.list DatabaseMetadata) :
  NoDup (map id rows) ->
  NoDup (map path rows) ->
  path_taken_by_other i (path r') rows = false ->
  NoDup (map path (map (replace_id i r') rows)).
Proof.
  intros Hi Hp Ht. rewrite taken_false in Ht.
  induction rows as [|x rest IH]; simpl; [constructor|].
  pose proof (no_match_in_tail x rest Hi) as Htail.
  simpl in Hi, Hp. apply NoDup_cons in Hi as [_ Hi]. apply NoDup_cons in Hp as [Hpx Hp].
  unfold replace_id at 1. destruct (Z.eqb (id x) i) eqn:Ex.
  - apply Z.eqb_eq in Ex. rewrite Ex in Htail.
    rewrite (replace_no_match _ _ _ Htail). apply NoDup_cons. split; [|exact Hp].
    intros Hin. apply list_elem_of_fmap in Hin as (y & Hy & Hyin).
    apply (Ht y); [now right | now apply Htail | now symmetry].
  - apply Z.eqb_neq in Ex. apply NoDup_cons. split.
    + intros Hin. apply list_elem_of_fmap in Hin as (y' & Hy' & Hin).
      apply list_elem_of_fmap in Hin as (y & -> & Hyin).
      unfold replace_id in Hy'. destruct (Z.eqb (id y) i) eqn:Ey.
      * apply (Ht x); [left | exact Ex | exact Hy'].
      * apply Hpx. rewrite Hy'. now apply list_elem_of_fmap_2.
    + apply IH; [exact Hi | exact Hp |]. intros y Hy. apply Ht. now right.
Qed.

Lemma findById_with_rows j rows d :
  findById j (with_rows rows d) = find (fun r => Z.eqb (id r) j) rows.
Proof. reflexivity. Qed.

End QueriesFacts.

(** X5. When [update] answers [null] nothing has been written; it
    answers [null] for an unknown id and whenever the partial record
    carries none of the updatable members (the SET list is then empty), so
    in that case [last_accessed] is not refreshed either. When it answers
    with a record, that record has the id asked for, the time of the call
    as [last_accessed], and is what [findById] now returns. *)
Theorem update_null_writes_nothing i p now d :
  let out := MetadataQueries.update i p now d in
  match out.1 with
  | None => out.2 = d
  | Some r =>
      MetadataModel.id r = i /\ MetadataModel.last_accessed r = now /\
      MetadataModel.findById i out.2 = Some r
  end /\
  (if MetadataQueries.no_updates p then out = (None, d) else True) /\
  match MetadataModel.findById i d with
  | None => out = (None, d)
  | Some _ => True
  end.
Proof.
  intros out. subst out. unfold MetadataQueries.update.
  destruct (MetadataModel.findById i d) as [r|] eqn:Ef; cbn [fst snd].
  2:{ split; [reflexivity|]. split; [|reflexivity].
      now destruct (MetadataQueries.no_updates p). }
  destruct (MetadataQueries.no_updates p) eqn:En; cbn [fst snd];
    [repeat split|].
  destruct (MetadataQueries.update_rows i p now _ _) as [rows'|] eqn:Eu; cbn [fst snd];
    [|repeat split].
  split; [|repeat split].
  rewrite findById_with_rows, (update_rows_find _ _ _ _ _ _ i Eu), Z.eqb_refl.
  unfold MetadataModel.findById, MetadataModel.select_by_id in Ef. rewrite Ef.
  destruct (update_rows_found _ _ _ _ _ _ _ Eu Ef) as (r' & Er & _). rewrite Er.
  pose proof (updated_row_id _ _ _ _ Er) as Hid.
  pose proof (updated_row_stamp _ _ _ _ Er) as [Hs _].
  apply find_some in Ef as [_ Ef]. apply Z.eqb_eq in Ef.
  repeat split; congruence.
Qed.

(** X6. On a table with unique ids, an [update] of a known record whose
    new values pass the NOT NULL and UNIQUE(path) constraints returns the
    rewritten row: the members supplied are stored, [last_accessed] is the
    time of the call, [id] and [created_at] are as before whatever the
    partial record says about them, every other record is untouched, and
    the table keeps its unique ids and unique paths. *)
Theorem update_applies_supplied_members i p now d r r'
    (Hids : MetadataQueries.unique_ids d)
    (Hf : MetadataModel.findById i d = Some r)
    (Hn : MetadataQueries.no_updates p = false)
    (Hr : MetadataQueries.updated_row p now r = Some r')
    (Hp : MetadataQueries.path_taken_by_other i (MetadataModel.path r')
            (MetadataModel.table_rows (MetadataModel.live d)) = false) :
  let out := MetadataQueries.update i p now d in
  out.1 = Some r' /\
  (forall j, j <> i -> MetadataModel.findById j out.2 = MetadataModel.findById j d) /\
  MetadataModel.id r' = MetadataModel.id r /\
  MetadataModel.created_at r' = MetadataModel.created_at r /\
  MetadataModel.last_accessed r' = now /\
  MetadataQueries.unique_ids out.2 /\
  (MetadataModel.consistent d -> MetadataModel.consistent out.2).
Proof.
  intros out. subst out. unfold MetadataQueries.update. rewrite Hf, Hn.
  pose proof Hf as Hf'. unfold MetadataModel.findById, MetadataModel.select_by_id in Hf'.
  rewrite (update_rows_unique _ _ _ _ _ _ _ Hids Hf' Hr Hp). cbn [fst snd].
  pose proof (updated_row_id _ _ _ _ Hr) as Hid.
  pose proof (updated_row_stamp _ _ _ _ Hr) as [Hs Hc].
  assert (Hi : MetadataModel.id r' = i).
  { apply find_some in Hf' as [_ E]. apply Z.eqb_eq in E. congruence. }
  assert (Hrows : MetadataQueries.update_rows i p now
                    (MetadataModel.table_rows (MetadataModel.live d))
                    (MetadataModel.table_rows (MetadataModel.live d))
                  = Some (map (MetadataQueries.replace_id i r')
                            (MetadataModel.table_rows (MetadataModel.live d)))).
  { now apply (update_rows_unique _ _ _ _ _ r r'). }
  split.
  { rewrite findById_with_rows, (update_rows_find _ _ _ _ _ _ i Hrows), Z.eqb_refl.
    now rewrite Hf'. }
  split.
  { intros j Hj. rewrite findById_with_rows, (update_rows_find _ _ _ _ _ _ j Hrows).
    apply Z.eqb_neq in Hj. now rewrite Hj. }
  split; [exact Hid|]. split; [exact Hc|]. split; [exact Hs|]. split.
  - unfold MetadataQueries.unique_ids. cbn. now rewrite replace_ids.
  - intros (Hpend & Hle & Hpaths). unfold MetadataModel.consistent. cbn.
    split; [exact Hpend|]. split.
    + apply Forall_forall. intros x Hx.
      assert (Hin : MetadataModel.id x ∈ map MetadataModel.id
                      (map (MetadataQueries.replace_id i r')
                         (MetadataModel.table_rows (MetadataModel.live d))))
        by now apply list_elem_of_fmap_2.
      rewrite replace_ids in Hin by exact Hi.
      apply list_elem_of_fmap in Hin as (y & -> & Hy).
      rewrite Forall_forall in Hle. now apply Hle.
    + now apply replace_paths.
Qed.

Section DeleteFacts.

Import MetadataModel MetadataQueries.

Lemma find_filter_id i j (rows : Datatypes.list DatabaseMetadata) :
  find (fun r => Z.eqb (id r) j) (List.filter (fun r => negb (Z.eqb (id r) i)) rows)
  = if Z.eqb j i then None else find (fun r => Z.eqb (id r) j) rows.
Proof.
  induction rows as [|x rest IH]; simpl; [now destruct (Z.eqb j i)|].
  destruct (Z.eqb (id x) i) eqn:Ei; simpl.
  - rewrite IH. destruct (Z.eqb j i) eqn:Eji; [reflexivity|].
    destruct (Z.eqb (id x) j) eqn:Ej; [|reflexivity].
    apply Z.eqb_eq in Ei, Ej. apply Z.eqb_neq in Eji. congruence.
  - destruct (Z.eqb (id x) j) eqn:Ej; [|exact IH].
    destruct (Z.eqb j i) eqn:Eji; [|reflexivity].
    apply Z.eqb_eq in Ej, Eji. apply Z.eqb_neq in Ei. congruence.
Qed.

Lemma filter_length_le {A} (f : A -> bool) (l : Datatypes.list A) :
  (length (List.filter f l) <= length l)%nat.
Proof. induction l as [|x l IH]; simpl; [lia|]. destruct (f x); simpl; lia. Qed.

Lemma delete_changes i (rows : Datatypes.list DatabaseMetadata) :
  Nat.ltb (length (List.filter (fun r => negb (Z.eqb (id r) i)) rows)) (length rows)
  = existsb (fun r => Z.eqb (id r) i) rows.
Proof.
  induction rows as [|x rest IH]; simpl; [reflexivity|].
  pose proof (filter_length_le (fun r => negb (Z.eqb (id r) i)) rest) as Hle.
  destruct (Z.eqb (id x) i); simpl.
  - apply Nat.ltb_lt. lia.
  - exact IH.
Qed.

Lemma filter_keeps_paths (f : DatabaseMetadata -> bool) (rows : Datatypes.list DatabaseMetadata) :
  NoDup (map path rows) -> NoDup (map path (List.filter f rows)).
Proof.
  induction rows as [|x rest IH]; simpl; intros H; [constructor|].
  apply NoDup_cons in H as [Hx H]. destruct (f x); simpl; [|now apply IH].
  apply NoDup_cons. split; [|now apply IH].
  intros Hin. apply Hx. apply list_elem_of_fmap in Hin as (y & -> & Hy).
  apply list_elem_of_fmap_2. apply list_elem_of_In in Hy. apply filter_In in Hy as [Hy _].
  now apply list_elem_of_In.
Qed.

Lemma delete_consistent i d : consistent d -> consistent (delete i d).2.
Proof.
  intros (Hp & Hle & Hn). unfold consistent, delete. cbn.
  split; [exact Hp|]. split; [|now apply filter_keeps_paths].
  apply Forall_forall. intros x Hx. rewrite Forall_forall in Hle. apply Hle.
  apply list_elem_of_In in Hx. apply filter_In in Hx as [Hx _]. now apply list_elem_of_In.
Qed.

End DeleteFacts.

(** X7. On a consistent table, after [delete(id)] no record has that
    id; the answer is [true] exactly when one had it; every other record is
    found as before and the table stays consistent. The id counter is not
    wound back: a record created afterwards gets an id above every id the
    table held before the delete, the deleted one included. *)
Theorem delete_removes_record i d (Hd : MetadataModel.consistent d) :
  let out := MetadataQueries.delete i d in
  MetadataModel.findById i out.2 = None /\
  out.1 = existsb (fun r => Z.eqb (MetadataModel.id r) i)
            (MetadataModel.table_rows (MetadataModel.live d)) /\
  (forall j, j <> i -> MetadataModel.findById j out.2 = MetadataModel.findById j d) /\
  MetadataModel.consistent out.2 /\
  (forall n now,
      match (MetadataModel.create n now out.2).1 with
      | Ok rec =>
          Forall (fun r => MetadataModel.id r < MetadataModel.id rec)
            (MetadataModel.table_rows (MetadataModel.live d))
      | Throw _ => True
      end).
Proof.
  intros out. subst out.
  pose proof (delete_consistent i d Hd) as Hc.
  unfold MetadataQueries.delete in *. cbn [fst snd] in *.
  split; [rewrite findById_with_rows, find_filter_id; now rewrite Z.eqb_refl|].
  split; [apply delete_changes|].
  split.
  { intros j Hj. rewrite findById_with_rows, find_filter_id.
    apply Z.eqb_neq in Hj. now rewrite Hj. }
  split; [exact Hc|].
  intros n now. rewrite (create_spec n now _ Hc).
  destruct (MetadataModel.has_path _ _); [exact I|]. cbn.
  destruct Hd as (_ & Hle & _). eapply Forall_impl; [exact Hle|].
  cbn. intros; lia.
Qed.

Section OrderByFacts.

Context {A : Type} (key : A -> Z).

Lemma insert_desc_perm x (l : Datatypes.list A) : insert_desc key x l ≡ₚ x :: l.
Proof.
  induction l as [|y rest IH]; simpl; [reflexivity|].
  destruct (Z.leb (key y) (key x)); [reflexivity|].
  rewrite IH. apply Permutation_swap.
Qed.

Lemma order_by_desc_perm (l : Datatypes.list A) : order_by_desc key l ≡ₚ l.
Proof.
  induction l as [|x rest IH]; simpl; [reflexivity|].
  now rewrite insert_desc_perm, IH.
Qed.

Lemma insert_desc_sorted x (l : Datatypes.list A) :
  StronglySorted (fun a b => key b <= key a) l ->
  StronglySorted (fun a b => key b <= key a) (insert_desc key x l).
Proof.
  induction 1 as [|y rest Hs IH Hy]; simpl.
  - constructor; constructor.
  - destruct (Z.leb (key y) (key x)) eqn:E.
    + apply Z.leb_le in E. constructor; [now constructor|].
      constructor; [exact E|]. eapply Forall_impl; [exact Hy|].
      intros z Hz. simpl in Hz. lia.
    + apply Z.leb_gt in E. constructor; [exact IH|].
      rewrite (insert_desc_perm x rest). constructor; [lia | exact Hy].
Qed.

Lemma order_by_desc_sorted (l : Datatypes.list A) :
  StronglySorted (fun a b => key b <= key a) (order_by_desc key l).
Proof.
  induction l as [|x rest IH]; simpl; [constructor|]. now apply insert_desc_sorted.
Qed.

(** A row whose key is not below any key of [l] goes in front. *)
Lemma insert_desc_front x (l : Datatypes.list A) :
  Forall (fun y => key y <= key x) l -> insert_desc key x l = x :: l.
Proof.
  intros H. destruct l as [|y rest]; [reflexivity|]. simpl.
  apply Forall_cons in H as [Hy _]. apply Z.leb_le in Hy. now rewrite Hy.
Qed.

Lemma Forall_filter_keep (P : A -> Prop) (f : A -> bool) (l : Datatypes.list A) :
  Forall P l -> Forall P (List.filter f l).
Proof.
  induction 1 as [|y rest Hy _ IH]; simpl; [constructor|].
  destruct (f y); [now constructor | exact IH].
Qed.

(** A WHERE clause commutes with the ordering. *)
Lemma filter_insert_desc (f : A -> bool) x (l : Datatypes.list A) :
  StronglySorted (fun a b => key b <= key a) l ->
  List.filter f (insert_desc key x l) =
  if f x then insert_desc key x (List.filter f l) else List.filter f l.
Proof.
  induction 1 as [|y rest Hs IH Hy]; [simpl; now destruct (f x)|].
  cbn [insert_desc]. destruct (Z.leb (key y) (key x)) eqn:E.
  - cbn [List.filter]. destruct (f x); [|reflexivity].
    symmetry. apply insert_desc_front.
    apply Z.leb_le in E.
    change (Forall (fun z => key z <= key x) (List.filter f (y :: rest))).
    apply Forall_filter_keep. constructor; [exact E|].
    eapply Forall_impl; [exact Hy|]. intros z Hz. simpl in Hz. lia.
  - cbn [List.filter]. rewrite IH. destruct (f y), (f x); try reflexivity.
    cbn [insert_desc]. now rewrite E.
Qed.

Lemma filter_order_by_desc (f : A -> bool) (l : Datatypes.list A) :
  List.filter f (order_by_desc key l) = order_by_desc key (List.filter f l).
Proof.
  induction l as [|x rest IH]; [reflexivity|].
  cbn [order_by_desc foldr List.filter].
  rewrite filter_insert_desc by apply order_by_desc_sorted.
  fold (order_by_desc key rest). rewrite IH. now destruct (f x).
Qed.

(** Rows that share one key are left as they were scanned. *)
Lemma order_by_desc_ties t (l : Datatypes.list A) :
  Forall (fun y => key y = t) l -> order_by_desc key l = l.
Proof.
  induction 1 as [|x rest Hx Hrest IH]; [reflexivity|].
  cbn [order_by_desc foldr]. fold (order_by_desc key rest). rewrite IH.
  apply insert_desc_front. eapply Forall_impl; [exact Hrest|].
  intros z Hz. simpl in Hz. lia.
Qed.

Lemma filter_key_ties t (l : Datatypes.list A) :
  List.filter (fun y => Z.eqb (key y) t) (order_by_desc key l)
  = List.filter (fun y => Z.eqb (key y) t) l.
Proof.
  rewrite filter_order_by_desc. apply (order_by_desc_ties t).
  apply Forall_forall. intros y Hy. apply list_elem_of_In, filter_In in Hy as [_ Hy].
  now apply Z.eqb_eq.
Qed.

End OrderByFacts.

(** X8. [list] returns every record of the table exactly once, the most
    recently accessed first, and records with the same [last_accessed] in
    the order of the table. [listFavorites] returns the records of that
    list whose [is_favorite] is 1, in the order [list] gives them. *)
Theorem list_newest_first d :
  MetadataQueries.list d ≡ₚ MetadataModel.table_rows (MetadataModel.live d) /\
  StronglySorted MetadataQueries.newer_first (MetadataQueries.list d) /\
  (forall t,
      List.filter (fun r => Z.eqb (MetadataModel.last_accessed r) t) (MetadataQueries.list d)
      = List.filter (fun r => Z.eqb (MetadataModel.last_accessed r) t)
          (MetadataModel.table_rows (MetadataModel.live d))) /\
  MetadataQueries.listFavorites d
  = List.filter (fun r => Z.eqb (MetadataModel.is_favorite r) 1) (MetadataQueries.list d).
Proof.
  unfold MetadataQueries.list, MetadataQueries.listFavorites.
  split; [apply order_by_desc_perm|].
  split; [apply (order_by_desc_sorted MetadataModel.last_accessed)|].
  split; [intros t; apply filter_key_ties|].
  symmetry. apply filter_order_by_desc.
Qed.

(** ** Preferences and history, continued *)

Section PreferenceLookups.

Import AppDb AppDbQueries.

Lemma filter_overwrite_other k k' v now (l : Datatypes.list UserPreference) :
  k' <> k ->
  List.filter (fun r => String.eqb (key r) k') (map (overwrite k v now) l)
  = List.filter (fun r => String.eqb (key r) k') l.
Proof.
  intros Hk. induction l as [|r l IH]; simpl; [reflexivity|].
  rewrite overwrite_key, IH.
  destruct (String.eqb (key r) k') eqn:E; [|reflexivity].
  f_equal. unfold overwrite. destruct (String.eqb (key r) k) eqn:E'; [|reflexivity].
  apply String.eqb_eq in E, E'. congruence.
Qed.

Lemma filter_overwrite_same k v now (l : Datatypes.list UserPreference) :
  List.filter (fun r => String.eqb (key r) k) (map (overwrite k v now) l)
  = map (overwrite k v now) (List.filter (fun r => String.eqb (key r) k) l).
Proof.
  induction l as [|r l IH]; simpl; [reflexivity|].
  rewrite overwrite_key, IH. now destruct (String.eqb (key r) k).
Qed.

Lemma filter_nonempty k (l : Datatypes.list UserPreference) :
  existsb (fun r => String.eqb (key r) k) l = true ->
  exists r rest, List.filter (fun r => String.eqb (key r) k) l = r :: rest /\ key r = k.
Proof.
  induction l as [|x l IH]; simpl; [discriminate|].
  destruct (String.eqb (key x) k) eqn:E; simpl.
  - intros _. exists x, (List.filter (fun r => String.eqb (key r) k) l).
    split; [reflexivity | now apply String.eqb_eq].
  - exact IH.
Qed.

Lemma fromEntries_snoc es k v :
  fromEntries (es ++ [(k, v)]) = <[k := v]> (fromEntries es).
Proof. unfold fromEntries. now rewrite fold_left_app. Qed.

Lemma all_preferences_lookup (l : Datatypes.list UserPreference) k :
  NoDup (map key l) ->
  fromEntries (map (fun p => (key p, value p)) l) !! k
  = match List.filter (fun r => String.eqb (key r) k) l with
    | r :: _ => Some (value r)
    | [] => None
    end.
Proof.
  induction l as [|x l IH] using rev_ind; intros Hn; [reflexivity|].
  rewrite map_app in Hn. simpl in Hn. apply NoDup_app in Hn as (Hl & Hx & _).
  rewrite map_app. simpl. rewrite fromEntries_snoc, List.filter_app. simpl.
  destruct (String.eqb (key x) k) eqn:E.
  - apply String.eqb_eq in E. subst k. rewrite lookup_insert_eq.
    rewrite filter_absent; [reflexivity|].
    intros Hin. apply (Hx (key x) Hin). now left.
  - apply String.eqb_neq in E. rewrite lookup_insert_ne by exact E.
    rewrite app_nil_r. now apply IH.
Qed.

End PreferenceLookups.

Lemma getPreference_after_set k v now db :
  AppDb.getPreference k (AppDb.setPreference k v now db) = Some v /\
  (forall k', k' <> k ->
     AppDb.getPreference k' (AppDb.setPreference k v now db) = AppDb.getPreference k' db).
Proof.
  unfold AppDb.getPreference, AppDb.rows_for, AppDb.setPreference.
  destruct (AppDb.has_key k db) eqn:E; cbn [AppDb.user_preferences]; split.
  - rewrite filter_overwrite_same.
    destruct (filter_nonempty k _ E) as (r & rest & -> & Hr). simpl.
    unfold AppDb.overwrite. rewrite Hr, String.eqb_refl. reflexivity.
  - intros k' Hk. now rewrite filter_overwrite_other.
  - rewrite List.filter_app. simpl. rewrite String.eqb_refl.
    rewrite filter_absent; [reflexivity|].
    intros Hin. apply existsb_key_elem in Hin. unfold AppDb.has_key in E. congruence.
  - intros k' Hk. rewrite List.filter_app. simpl.
    assert (Hne : String.eqb k k' = false) by (apply String.eqb_neq; congruence).
    rewrite Hne. now rewrite app_nil_r.
Qed.

(** X9. A preference just written is what [getPreference] reads for that
    key, whatever the table held before, and writing one key changes the
    value read for no other key. *)
Theorem preference_read_your_write k v now db :
  AppDb.getPreference k (AppDb.setPreference k v now db) = Some v /\
  (forall k', k' <> k ->
     AppDb.getPreference k' (AppDb.setPreference k v now db) = AppDb.getPreference k' db).
Proof.
  split; [apply getPreference_after_set|].
  intros k' Hk. now apply (proj2 (getPreference_after_set k v now db)).
Qed.

(** X10. On a table with unique keys, the object built by
    [getAllPreferences] holds under each key exactly what [getPreference]
    returns for it, so after [setPreference k v] it holds [v] under [k]. *)
Theorem all_preferences_agree db k v now (Hu : AppDb.unique_keys db) :
  AppDbQueries.getAllPreferences db !! k = AppDb.getPreference k db /\
  AppDbQueries.getAllPreferences (AppDb.setPreference k v now db) !! k = Some v.
Proof.
  unfold AppDbQueries.getAllPreferences, AppDb.getPreference, AppDb.rows_for. split.
  - now apply all_preferences_lookup.
  - rewrite all_preferences_lookup by now apply setPreference_unique.
    apply (getPreference_after_set k v now db).
Qed.

Section UpsertInvariants.

Import AppDb.

Lemma map_refresh_paths i now (l : Datatypes.list MetadataRow) :
  map path (map (refresh i now) l) = map path l.
Proof.
  induction l as [|r l IH]; simpl; [reflexivity|]. now rewrite refresh_path, IH.
Qed.

Lemma existsb_path_elem q (l : Datatypes.list MetadataRow) :
  existsb (fun r => String.eqb (path r) q) l = true <-> q ∈ map path l.
Proof.
  induction l as [|r l IH]; simpl.
  - split; [discriminate | intros H; inversion H].
  - rewrite orb_true_iff, IH, String.eqb_eq, elem_of_cons. split; intros [H|H]; auto.
Qed.

Lemma coalesce_idem {A : Type} (a b : option A) : coalesce a (coalesce a b) = coalesce a b.
Proof. now destruct a. Qed.

Lemma AppDb_coalesce_self {A : Type} (a : option A) : coalesce a a = a.
Proof. now destruct a. Qed.

Lemma refresh_idem i now r : refresh i now (refresh i now r) = refresh i now r.
Proof.
  unfold refresh. destruct (String.eqb (path r) (in_path i)) eqn:E; simpl; rewrite E;
    [|reflexivity].
  now rewrite !coalesce_idem.
Qed.

Lemma refresh_absent i now (l : Datatypes.list MetadataRow) :
  existsb (fun r => String.eqb (path r) (in_path i)) l = false ->
  map (refresh i now) l = l.
Proof.
  induction l as [|r l IH]; simpl; [reflexivity|].
  intros H. apply orb_false_iff in H as [Hr Hl].
  unfold refresh at 1. rewrite Hr. now rewrite IH.
Qed.

Lemma has_path_after i now db : has_path (in_path i) (updateDatabaseMetadata i now db) = true.
Proof.
  unfold has_path at 1. apply existsb_path_elem. unfold updateDatabaseMetadata.
  destruct (has_path (in_path i) db) eqn:E; cbn [database_metadata].
  - rewrite map_refresh_paths. now apply existsb_path_elem.
  - rewrite map_app. apply elem_of_app. right. simpl. left.
Qed.

End UpsertInvariants.

(** X11. The upsert keeps the UNIQUE(path) constraint. Repeating it with
    the same argument at the same time leaves every row as the first call
    left it and does not touch the preferences; only the id counter moves
    on, by one with each call, whether the call inserted a row or updated
    the one in conflict. *)
Theorem upsert_keeps_rows_advances_counter i now db (Hu : AppDb.unique_paths db) :
  let once := AppDb.updateDatabaseMetadata i now db in
  let twice := AppDb.updateDatabaseMetadata i now once in
  AppDb.unique_paths once /\
  AppDb.database_metadata twice = AppDb.database_metadata once /\
  AppDb.user_preferences twice = AppDb.user_preferences db /\
  AppDb.user_preferences_seq twice = AppDb.user_preferences_seq db /\
  AppDb.database_metadata_seq once = AppDb.database_metadata_seq db + 1 /\
  AppDb.database_metadata_seq twice = AppDb.database_metadata_seq db + 2.
Proof.
  intros once twice. split; [|split].
  - subst once. unfold AppDb.unique_paths, AppDb.updateDatabaseMetadata in *.
    destruct (AppDb.has_path (AppDb.in_path i) db) eqn:E; cbn [AppDb.database_metadata].
    + now rewrite map_refresh_paths.
    + rewrite map_app. simpl. apply NoDup_app. split; [exact Hu|]. split.
      * intros x Hx Hk. apply list_elem_of_singleton in Hk. subst x.
        apply existsb_path_elem in Hx. unfold AppDb.has_path in E. congruence.
      * apply NoDup_singleton.
  - subst twice once. unfold AppDb.updateDatabaseMetadata at 1. rewrite has_path_after.
    cbn [AppDb.database_metadata]. unfold AppDb.updateDatabaseMetadata.
    destruct (AppDb.has_path (AppDb.in_path i) db) eqn:E; cbn [AppDb.database_metadata].
    + rewrite map_map. apply map_ext. intros r. apply refresh_idem.
    + rewrite map_app. simpl. rewrite (refresh_absent i now _ E). f_equal.
      unfold AppDb.refresh. cbn. rewrite String.eqb_refl.
      now rewrite !AppDb_coalesce_self.
  - assert (Hstep : forall x,
               AppDb.user_preferences (AppDb.updateDatabaseMetadata i now x)
               = AppDb.user_preferences x /\
               AppDb.user_preferences_seq (AppDb.updateDatabaseMetadata i now x)
               = AppDb.user_preferences_seq x /\
               AppDb.database_metadata_seq (AppDb.updateDatabaseMetadata i now x)
               = AppDb.database_metadata_seq x + 1).
    { intros x. unfold AppDb.updateDatabaseMetadata.
      destruct (AppDb.has_path (AppDb.in_path i) x); repeat split. }
    destruct (Hstep db) as (P1 & S1 & M1). destruct (Hstep once) as (P2 & S2 & M2).
    fold once in P1, S1, M1. fold twice in P2, S2, M2.
    rewrite P2, S2, M2, P1, S1, M1. repeat split. lia.
Qed.

Section HistoryFacts.

Import AppDbQueries.

Lemma sorted_recent (l : Datatypes.list QueryHistoryEntry) :
  StronglySorted executed_first (order_by_desc h_executed_at l) /\
  order_by_desc h_executed_at l ≡ₚ l.
Proof.
  split; [apply (order_by_desc_sorted h_executed_at) | apply order_by_desc_perm].
Qed.

Lemma StronglySorted_take {A} (R : relation A) n (l : Datatypes.list A) :
  StronglySorted R l -> StronglySorted R (take n l).
Proof.
  intros H. rewrite <- (take_drop n l) in H. now apply StronglySorted_app_1_l in H.
Qed.

Lemma sql_limit_sorted {A} (R : relation A) n (l : Datatypes.list A) :
  StronglySorted R l -> StronglySorted R (sql_limit n l).
Proof. unfold sql_limit. destruct (Z.ltb n 0); [auto | apply StronglySorted_take]. Qed.

Lemma sql_limit_elem {A} n (l : Datatypes.list A) x : x ∈ sql_limit n l -> x ∈ l.
Proof.
  unfold sql_limit. destruct (Z.ltb n 0); [auto|]. apply subseteq_take.
Qed.

(** The newest entry heads the sorted table. *)
Lemma newest_heads_sorted (rows : Datatypes.list QueryHistoryEntry) r :
  Forall (fun x => h_executed_at x < h_executed_at r) rows ->
  head (order_by_desc h_executed_at (rows ++ [r])) = Some r.
Proof.
  intros Hold. destruct (sorted_recent (rows ++ [r])) as [Hs Hp].
  destruct (order_by_desc h_executed_at (rows ++ [r])) as [|h tl] eqn:E.
  - apply Permutation_nil_l in Hp. now destruct rows.
  - simpl. f_equal.
    assert (Hh : h ∈ (rows ++ [r])%list) by (rewrite <- Hp; left).
    assert (Hr : r ∈ h :: tl) by (rewrite Hp; apply elem_of_app; right; left).
    apply elem_of_app in Hh as [Hh|Hh]; [|now apply list_elem_of_singleton in Hh].
    exfalso. rewrite Forall_forall in Hold. specialize (Hold h Hh).
    apply elem_of_cons in Hr as [Hr|Hr]; [subst; lia|].
    apply StronglySorted_inv in Hs as [_ Hs]. rewrite Forall_forall in Hs.
    specialize (Hs r Hr). unfold executed_first in Hs. lia.
Qed.

End HistoryFacts.

(** X12. [addQueryToHistory] stores and returns the entry under the next
    id, stamped with the time of the insert whatever [executed_at] the
    caller supplied. [getRecentQueries] returns entries of the table,
    newest first, as many as the limit allows (all of them for a negative
    limit, 50 by default); when the entry just added is newer than every
    earlier one and the limit is at least 1, it comes first. *)
Theorem recent_queries_newest_first e now limit t
    (Hnew : Forall (fun x => AppDbQueries.h_executed_at x < now) (AppDbQueries.history_rows t))
    (Hlim : 1 <= default 50 limit) :
  let out := AppDbQueries.addQueryToHistory e now t in
  let recent := AppDbQueries.getRecentQueries limit out.2 in
  AppDbQueries.h_executed_at out.1 = now /\
  AppDbQueries.h_id out.1 = AppDbQueries.history_seq t + 1 /\
  AppDbQueries.history_rows out.2 = (AppDbQueries.history_rows t ++ [out.1])%list /\
  StronglySorted AppDbQueries.executed_first recent /\
  (forall x, x ∈ recent -> x ∈ AppDbQueries.history_rows out.2) /\
  length recent = Nat.min (Z.to_nat (default 50 limit)) (length (AppDbQueries.history_rows out.2)) /\
  head recent = Some out.1.
Proof.
  intros out recent. subst recent out. unfold AppDbQueries.addQueryToHistory.
  cbn [fst snd AppDbQueries.h_executed_at AppDbQueries.h_id AppDbQueries.history_rows].
  set (r := AppDbQueries.mkHistory _ _ _ _ _ _ _).
  unfold AppDbQueries.getRecentQueries. cbn [AppDbQueries.history_rows].
  destruct (sorted_recent (AppDbQueries.history_rows t ++ [r])) as [Hs Hp].
  split; [reflexivity|]. split; [reflexivity|]. split; [reflexivity|].
  split; [now apply sql_limit_sorted|].
  split; [intros x Hx; apply sql_limit_elem in Hx; now rewrite Hp in Hx|].
  unfold AppDbQueries.sql_limit.
  assert (Hz : Z.ltb (default 50 limit) 0 = false) by (apply Z.ltb_ge; lia).
  rewrite Hz. split.
  - rewrite length_take, Hp. reflexivity.
  - pose proof (newest_heads_sorted (AppDbQueries.history_rows t) r Hnew) as Hh.
    destruct (order_by_desc _ _) as [|h tl]; [discriminate|].
    destruct (Z.to_nat (default 50 limit)) eqn:En; [lia|]. exact Hh.
Qed.

(** ** The list of recent databases *)

Section StoreFacts.

Import DatabaseStore.

Lemma filter_other_paths p (l : Datatypes.list StoredDatabase) :
  p ∉ map path (List.filter (fun d => negb (String.eqb (path d) p)) l).
Proof.
  intros Hin. apply list_elem_of_fmap in Hin as (d & Hp & Hd).
  apply list_elem_of_In, filter_In in Hd as [_ Hd].
  apply negb_true_iff, String.eqb_neq in Hd. congruence.
Qed.

Lemma filter_paths_NoDup (f : StoredDatabase -> bool) (l : Datatypes.list StoredDatabase) :
  NoDup (map path l) -> NoDup (map path (List.filter f l)).
Proof.
  induction l as [|x rest IH]; simpl; intros H; [constructor|].
  apply NoDup_cons in H as [Hx H]. destruct (f x); simpl; [|now apply IH].
  apply NoDup_cons. split; [|now apply IH].
  intros Hin. apply Hx. apply list_elem_of_fmap in Hin as (y & -> & Hy).
  apply list_elem_of_fmap_2. apply list_elem_of_In in Hy. apply filter_In in Hy as [Hy _].
  now apply list_elem_of_In.
Qed.

Lemma take_paths_NoDup n (l : Datatypes.list StoredDatabase) :
  NoDup (map path l) -> NoDup (map path (take n l)).
Proof.
  intros H. rewrite <- (take_drop n l), map_app in H. now apply NoDup_app in H as [H _].
Qed.

Lemma existsb_stored p (l : Datatypes.list StoredDatabase) :
  existsb (fun d => String.eqb (path d) p) l = true <-> p ∈ map path l.
Proof.
  induction l as [|r l IH]; simpl.
  - split; [discriminate | intros H; inversion H].
  - rewrite orb_true_iff, IH, String.eqb_eq, elem_of_cons. split; intros [H|H]; auto.
Qed.

Lemma touch_first_paths p now (l : Datatypes.list StoredDatabase) :
  map path (touch_first p now l) = map path l.
Proof.
  induction l as [|d rest IH]; simpl; [reflexivity|].
  destruct (String.eqb (path d) p); simpl; [reflexivity | now rewrite IH].
Qed.

End StoreFacts.

(** X13. [addDatabase] puts the new entry, stamped with the time given,
    at the front of the stored list, whatever the storage held (nothing,
    a list, or text that does not parse): it is the most recent one, its
    path is stored exactly once, at most ten entries are kept, and every
    other entry kept was stored before under another path. *)
Theorem add_database_front db now s :
  let out := DatabaseStore.addDatabase db now s in
  let stored := DatabaseStore.getStoredDatabases out.2 in
  DatabaseStore.getMostRecent out.2 = Some out.1 /\
  DatabaseStore.path out.1 = DatabaseStore.new_path db /\
  DatabaseStore.lastAccessed out.1 = now /\
  DatabaseStore.isDatabaseStored (DatabaseStore.new_path db) out.2 = true /\
  (length stored <= 10)%nat /\
  length (List.filter (fun d => String.eqb (DatabaseStore.path d) (DatabaseStore.new_path db))
            stored) = 1%nat /\
  (forall x, x ∈ stored -> x = out.1 \/
             (x ∈ DatabaseStore.getStoredDatabases s /\
              DatabaseStore.path x <> DatabaseStore.new_path db)).
Proof.
  intros out stored. subst stored out. unfold DatabaseStore.addDatabase.
  cbn [fst snd DatabaseStore.getStoredDatabases DatabaseStore.getMostRecent
       DatabaseStore.isDatabaseStored].
  set (e := DatabaseStore.mkStored _ _ _ _ _).
  set (kept := List.filter _ (DatabaseStore.getStoredDatabases s)).
  change (take DatabaseStore.MAX_RECENT_DBS (e :: kept)) with (e :: take 9 kept).
  split; [reflexivity|]. split; [reflexivity|]. split; [reflexivity|].
  split; [subst e; unfold DatabaseStore.isDatabaseStored; simpl; now rewrite String.eqb_refl|].
  split; [simpl; rewrite length_take; lia|].
  split.
  - cbn [List.filter]. change (DatabaseStore.path e) with (DatabaseStore.new_path db).
    rewrite String.eqb_refl. cbn [length]. f_equal.
    assert (Hno : DatabaseStore.new_path db ∉ map DatabaseStore.path (take 9 kept)).
    { intros Hin. apply (filter_other_paths (DatabaseStore.new_path db)
                           (DatabaseStore.getStoredDatabases s)).
      fold kept. rewrite <- (take_drop 9 kept), map_app. apply elem_of_app. now left. }
    induction (take 9 kept) as [|x l IH]; simpl; [reflexivity|].
    simpl in Hno. apply not_elem_of_cons in Hno as [Hx Hl].
    destruct (String.eqb (DatabaseStore.path x) (DatabaseStore.new_path db)) eqn:E;
      [apply String.eqb_eq in E; congruence | now apply IH].
  - intros x Hx. apply elem_of_cons in Hx as [Hx|Hx]; [now left|]. right.
    apply subseteq_take in Hx. subst kept.
    apply list_elem_of_In, filter_In in Hx as [Hx Hp].
    split; [now apply list_elem_of_In|].
    now apply negb_true_iff, String.eqb_neq in Hp.
Qed.

(** X14. A stored list with at most ten entries and no path twice stays
    so under [addDatabase], [removeDatabase], [updateLastAccessed] and
    [clearAll]. *)
Theorem recent_list_stays_tidy db p now s (Ht : DatabaseStore.tidy s) :
  DatabaseStore.tidy (DatabaseStore.addDatabase db now s).2 /\
  DatabaseStore.tidy (DatabaseStore.removeDatabase p s) /\
  DatabaseStore.tidy (DatabaseStore.updateLastAccessed p now s) /\
  DatabaseStore.tidy (DatabaseStore.clearAll s).
Proof.
  destruct Ht as [Hlen Hnd]. unfold DatabaseStore.tidy, DatabaseStore.MAX_RECENT_DBS in *.
  split; [|split; [|split]].
  - unfold DatabaseStore.addDatabase. cbn [snd DatabaseStore.getStoredDatabases].
    split; [rewrite length_take; unfold DatabaseStore.MAX_RECENT_DBS; lia|].
    apply take_paths_NoDup. simpl. apply NoDup_cons. split.
    + apply filter_other_paths.
    + now apply filter_paths_NoDup.
  - unfold DatabaseStore.removeDatabase. cbn [DatabaseStore.getStoredDatabases]. split.
    + pose proof (filter_length_le
                    (fun d => negb (String.eqb (DatabaseStore.path d) p))
                    (DatabaseStore.getStoredDatabases s)). lia.
    + now apply filter_paths_NoDup.
  - unfold DatabaseStore.updateLastAccessed.
    destruct (existsb _ _); [|now split]. cbn [DatabaseStore.getStoredDatabases].
    rewrite touch_first_paths. split; [|exact Hnd].
    rewrite <- (length_map DatabaseStore.path), touch_first_paths, length_map. exact Hlen.
  - simpl. split; [lia | constructor].
Qed.

(** X15. After [removeDatabase] the path is no longer stored, whether any
    other path is stored is as before, and removing again changes
    nothing. *)
Theorem remove_database_forgets p s :
  DatabaseStore.isDatabaseStored p (DatabaseStore.removeDatabase p s) = false /\
  (forall q, q <> p ->
     DatabaseStore.isDatabaseStored q (DatabaseStore.removeDatabase p s)
     = DatabaseStore.isDatabaseStored q s) /\
  DatabaseStore.removeDatabase p (DatabaseStore.removeDatabase p s)
  = DatabaseStore.removeDatabase p s.
Proof.
  unfold DatabaseStore.isDatabaseStored, DatabaseStore.removeDatabase.
  cbn [DatabaseStore.getStoredDatabases].
  induction (DatabaseStore.getStoredDatabases s) as [|d rest IH]; [repeat split|].
  destruct IH as (IH1 & IH2 & IH3). simpl.
  destruct (String.eqb (DatabaseStore.path d) p) eqn:E; simpl.
  - split; [exact IH1|]. split; [|exact IH3].
    intros q Hq. rewrite (IH2 q Hq).
    apply String.eqb_eq in E. subst p.
    assert (Hne : String.eqb (DatabaseStore.path d) q = false)
      by (apply String.eqb_neq; congruence).
    now rewrite Hne.
  - repeat (rewrite E; simpl). split; [exact IH1|]. split.
    + intros q Hq. now rewrite (IH2 q Hq).
    + injection IH3 as H3. now rewrite H3.
Qed.

Section TouchFacts.

Import DatabaseStore.

Lemma touch_first_find p now q (l : Datatypes.list StoredDatabase) :
  find (fun d => String.eqb (path d) q) (touch_first p now l)
  = if String.eqb q p
    then match find (fun d => String.eqb (path d) q) l with
         | Some d => Some {| path := path d; name := name d; lastAccessed := now;
                             tables := tables d; size := size d |}
         | None => None
         end
    else find (fun d => String.eqb (path d) q) l.
Proof.
  induction l as [|d rest IH]; simpl; [now destruct (String.eqb q p)|].
  destruct (String.eqb (path d) p) eqn:Ep; simpl.
  - destruct (String.eqb (path d) q) eqn:Eq.
    + apply String.eqb_eq in Ep, Eq. subst. now rewrite String.eqb_refl.
    + destruct (String.eqb q p) eqn:Eqp; [|reflexivity].
      apply String.eqb_eq in Ep, Eqp. apply String.eqb_neq in Eq. congruence.
  - destruct (String.eqb (path d) q) eqn:Eq; [|exact IH].
    destruct (String.eqb q p) eqn:Eqp; [|reflexivity].
    apply String.eqb_eq in Eq, Eqp. apply String.eqb_neq in Ep. congruence.
Qed.

End TouchFacts.

(** X16. [updateLastAccessed] writes nothing when the path is not stored
    (the storage item is left as it is, even when absent or unparsable).
    When it is stored, the first entry with that path gets the new time
    stamp and nothing else changes: the entries keep their order (the
    entry touched is not moved to the front) and the entries of other
    paths are found as before. *)
Theorem update_last_accessed_in_place p now s :
  let s' := DatabaseStore.updateLastAccessed p now s in
  let find_path q i :=
    find (fun d => String.eqb (DatabaseStore.path d) q) (DatabaseStore.getStoredDatabases i) in
  (if DatabaseStore.isDatabaseStored p s
   then map DatabaseStore.path (DatabaseStore.getStoredDatabases s')
        = map DatabaseStore.path (DatabaseStore.getStoredDatabases s)
   else s' = s) /\
  match find_path p s with
  | Some d =>
      find_path p s' =
      Some {| DatabaseStore.path := DatabaseStore.path d;
              DatabaseStore.name := DatabaseStore.name d;
              DatabaseStore.lastAccessed := now;
              DatabaseStore.tables := DatabaseStore.tables d;
              DatabaseStore.size := DatabaseStore.size d |}
  | None => s' = s
  end /\
  (forall q, q <> p -> find_path q s' = find_path q s).
Proof.
  intros s' find_path. subst s' find_path.
  unfold DatabaseStore.updateLastAccessed, DatabaseStore.isDatabaseStored.
  destruct (existsb _ (DatabaseStore.getStoredDatabases s)) eqn:E;
    cbn [DatabaseStore.getStoredDatabases].
  - split; [apply touch_first_paths|]. split.
    + rewrite touch_first_find, String.eqb_refl.
      destruct (find _ (DatabaseStore.getStoredDatabases s)) eqn:F; [reflexivity|].
      apply existsb_exists in E as (d & Hin & Hd).
      pose proof (find_none _ _ F d Hin) as Hn. cbn in Hn. congruence.
    + intros q Hq. rewrite touch_first_find.
      apply String.eqb_neq in Hq. now rewrite Hq.
  - split; [reflexivity|]. split; [|reflexivity].
    destruct (find _ (DatabaseStore.getStoredDatabases s)) as [d|] eqn:F; [|reflexivity].
    apply find_some in F as [Hin Hd].
    assert (Ht : existsb (fun d => String.eqb (DatabaseStore.path d) p)
                   (DatabaseStore.getStoredDatabases s) = true).
    { apply existsb_exists. now exists d. }
    congruence.
Qed.

(** ** The catalog routes and the client *)

(** X17. The test-database route works once: on a consistent catalog it
    answers 200 only if no record has the fixed path yet, and from then on
    every call is answered with a 500 and leaves the catalog as it is. *)
Theorem test_database_only_once now now' d (Hd : MetadataModel.consistent d) :
  let first := Server.createTest now d in
  let second := Server.createTest now' first.2 in
  status first.1
  = (if MetadataModel.has_path "/path/to/test.db" (MetadataModel.live d) then 500 else 200) /\
  MetadataModel.has_path "/path/to/test.db" (MetadataModel.live first.2) = true /\
  status second.1 = 500 /\
  second.2 = first.2.
Proof.
  intros first second.
  assert (H1 : status first.1
               = (if MetadataModel.has_path "/path/to/test.db" (MetadataModel.live d)
                  then 500 else 200) /\
               MetadataModel.has_path "/path/to/test.db" (MetadataModel.live first.2) = true /\
               MetadataModel.consistent first.2).
  { pose proof (create_consistent Server.test_database now d Hd) as Hc.
    subst first. unfold Server.createTest.
    rewrite (create_spec Server.test_database now d Hd) in *.
    change (MetadataModel.new_path Server.test_database) with "/path/to/test.db" in *.
    destruct (MetadataModel.has_path "/path/to/test.db" (MetadataModel.live d)) eqn:E;
      cbn [fst snd] in *.
    - split; [reflexivity|]. split; [exact E | exact Hd].
    - split; [reflexivity|]. split; [|exact Hc].
      apply has_path_elem. cbn. rewrite map_app. apply elem_of_app. right. now left. }
  destruct H1 as (Hs & Hp & Hc). split; [exact Hs|]. split; [exact Hp|].
  subst second. unfold Server.createTest.
  rewrite (create_spec Server.test_database now' _ Hc).
  change (MetadataModel.new_path Server.test_database) with "/path/to/test.db".
  rewrite Hp. now split.
Qed.

(** X19. What the client's [executeQuery] makes of the query route's
    reply: the rows object when the engine ran the statement; an [Error]
    carrying the engine's message when the engine threw one with a
    message; and the fixed text [Failed to execute query] both when the
    engine's message is empty and when no record has the id, so a 404 is
    not told apart from a failed statement. *)
Theorem client_query_outcomes String_of syntax_error engine i sql w d :
  let client := ApiClient.executeQuery String_of syntax_error
                  (Server.postQuery engine (Some i) sql w d).1 in
  match MetadataModel.findById i d with
  | None => client = Throw (ErrorObj "Failed to execute query")
  | Some md =>
      match outcome (engine (files w !! MetadataModel.path md) sql) with
      | Ok res => client = Ok (JObj [("results", to_json (JArr (rows res)))])
      | Throw (ErrorObj m) =>
          client = Throw (ErrorObj (if String.eqb m "" then "Failed to execute query" else m))
      | Throw (NonError _) => True
      end
  end.
Proof.
  intros client. subst client. unfold Server.postQuery, Server.lookup.
  destruct (MetadataModel.findById i d) as [md|]; [|reflexivity].
  unfold Upload.all.
  destruct (outcome (engine _ sql)) as [res|[m|v]]; [reflexivity| |exact I].
  cbn [fst snd Server.query_failed]. unfold ApiClient.executeQuery. cbn.
  unfold ApiClient.or_else. cbn. destruct (String.eqb m ""); reflexivity.
Qed.

(** X20. What the client's [uploadDatabase] makes of the upload route's
    reply: it returns the [database] member exactly when the route
    answered 200, and throws [Failed to upload database] otherwise, so the
    route's [details] never reach the user; against this route the
    [Invalid response format] error cannot arise. *)
Theorem client_upload_outcomes engine storageDir toLocaleString file w d :
  let resp := (Upload.upload engine storageDir toLocaleString file w d).1.1 in
  match ApiClient.uploadDatabase resp with
  | Ok database =>
      status resp = 200 /\ body resp = JObj [("database", database)] /\
      exists r, database = to_json (MetadataModel.to_js r)
  | Throw e => e = ErrorObj "Failed to upload database" /\ status resp <> 200
  end.
Proof.
  intros resp. subst resp. unfold Upload.upload.
  destruct file as [f|]; [|cbn; split; [reflexivity | discriminate]].
  destruct (files _ !! _) as [stored|];
    [|cbn; split; [reflexivity | discriminate]].
  destruct (Upload.all _ _ _ _) as [[tbls|e] w2];
    [|cbn; split; [reflexivity | discriminate]].
  destruct (MetadataModel.create _ _ _) as [[database|e] d'];
    [|cbn; split; [reflexivity | discriminate]].
  cbn. split; [reflexivity|]. split; [reflexivity|]. now exists database.
Qed.

Section StringAppend.

Import JsString.

Lemma str_app_cons x (a b : string) : String x a ++ b = String x (a ++ b).
Proof. reflexivity. Qed.

Lemma str_app_assoc (a b c : string) : (a ++ b) ++ c = a ++ (b ++ c).
Proof.
  induction a as [|x a IH]; [reflexivity|]. now rewrite !str_app_cons, IH.
Qed.

Lemma str_app_nil_r (a : string) : a ++ "" = a.
Proof. induction a as [|x a IH]; [reflexivity|]. now rewrite str_app_cons, IH. Qed.

Lemma rev_append_app (s acc : string) : rev_append s acc = rev s ++ acc.
Proof.
  unfold rev. revert acc. induction s as [|c s IH]; intros acc; [reflexivity|].
  cbn [rev_append]. rewrite (IH (String c acc)), (IH (String c "")).
  now rewrite str_app_assoc.
Qed.

Lemma rev_cons c (s : string) : rev (String c s) = rev s ++ String c "".
Proof. unfold rev at 1. cbn [rev_append]. apply rev_append_app. Qed.

Lemma rev_app (s t : string) : rev (s ++ t) = rev t ++ rev s.
Proof.
  induction s as [|c s IH].
  - change ("" ++ t) with t. change (rev "") with "". now rewrite str_app_nil_r.
  - now rewrite str_app_cons, !rev_cons, IH, str_app_assoc.
Qed.

Lemma rev_involutive (s : string) : rev (rev s) = s.
Proof.
  induction s as [|c s IH]; [reflexivity|].
  now rewrite rev_cons, rev_app, IH.
Qed.

Lemma startsWith_spec (s p : string) :
  startsWith s p = true <-> exists rest, s = p ++ rest.
Proof.
  revert s. induction p as [|a p IH]; intros s; cbn [startsWith].
  - split; [intros _; now exists s | intros _; now destruct s].
  - destruct s as [|b s]; [split; [discriminate | intros [r H]; discriminate]|].
    cbn [startsWith]. rewrite andb_true_iff, IH, Ascii.eqb_eq. split.
    + intros [-> [r ->]]. now exists r.
    + intros [r H]. rewrite str_app_cons in H. inversion H.
      split; [reflexivity | now exists r].
Qed.

Lemma endsWith_spec (s p : string) :
  endsWith s p = true <-> exists stem, s = stem ++ p.
Proof.
  unfold endsWith. rewrite startsWith_spec. split.
  - intros [r H]. exists (rev r).
    rewrite <- (rev_involutive s), H, rev_app. now rewrite rev_involutive.
  - intros [stem ->]. exists (rev stem). apply rev_app.
Qed.

End StringAppend.

(** X21. The drop zone looks at the first file only, and hands it on
    exactly when its name is some stem followed by [.db] (in lower case):
    the files after the first never matter, and a name without that ending
    is answered with the error toast alone. *)
Theorem drop_zone_accepts_db_names onFileSelect f rest :
  Upload.onDrop onFileSelect (f :: rest) = Upload.onDrop onFileSelect [f] /\
  (Upload.selected (Upload.onDrop onFileSelect (f :: rest)) = [f] <->
   exists stem, Upload.file_name f = stem ++ ".db") /\
  (Upload.onDrop onFileSelect (f :: rest) = [Upload.invalid_file_toast] <->
   ~ exists stem, Upload.file_name f = stem ++ ".db").
Proof.
  split; [reflexivity|].
  rewrite <- endsWith_spec. fold (Upload.has_db_extension f).
  destruct (Upload.has_db_extension f) eqn:E.
  - split.
    + split; [reflexivity | intros _; now apply onDrop_selected].
    + unfold Upload.onDrop. rewrite E. split; [discriminate | intros H; now destruct H].
  - unfold Upload.onDrop. rewrite E. split.
    + split; [discriminate | discriminate].
    + split; [intros _; discriminate | reflexivity].
Qed.

Section StoragePaths.

Import Upload.

Lemma digits_dash_free d : dash_free (NilEmpty.string_of_uint d) = true.
Proof. induction d; simpl; auto. Qed.

Lemma of_Z_dash_free t : 0 <= t -> dash_free (JsString.of_Z t) = true.
Proof.
  intros Ht. unfold JsString.of_Z. destruct t as [|p|p]; [reflexivity| |lia].
  simpl. unfold NilZero.string_of_uint.
  destruct (Pos.to_uint p); try reflexivity; apply (digits_dash_free (_ _)).
Qed.

Lemma of_Z_inj a b : JsString.of_Z a = JsString.of_Z b -> a = b.
Proof.
  unfold JsString.of_Z. intros H. apply DecimalZ.to_int_inj.
  assert (Hn : forall z, Z.to_int z <> Decimal.Pos Decimal.Nil /\
                         Z.to_int z <> Decimal.Neg Decimal.Nil).
  { intros [|p|p]; simpl; split; try discriminate;
      intros E; injection E as E; now apply DecimalPos.Unsigned.to_uint_nonnil in E. }
  pose proof (NilZero.isi (Z.to_int a) (proj1 (Hn a)) (proj2 (Hn a))) as Ha.
  pose proof (NilZero.isi (Z.to_int b) (proj1 (Hn b)) (proj2 (Hn b))) as Hb.
  rewrite H in Ha. congruence.
Qed.

Lemma str_app_inv_head (p a b : string) : p ++ a = p ++ b -> a = b.
Proof.
  induction p as [|c p IH]; [auto|]. rewrite !str_app_cons. intros H.
  injection H as H. now apply IH.
Qed.

Lemma split_at_dash (a b x y : string) :
  dash_free a = true -> dash_free b = true ->
  a ++ String "-" x = b ++ String "-" y -> a = b /\ x = y.
Proof.
  revert b. induction a as [|c a IH]; intros b Ha Hb H.
  - destruct b as [|c' b]; [now injection H|].
    rewrite str_app_cons in H. change ("" ++ String "-" x) with (String "-" x) in H.
    injection H as Hc _. subst c'. discriminate Hb.
  - destruct b as [|c' b].
    + rewrite str_app_cons in H. change ("" ++ String "-" y) with (String "-" y) in H.
      injection H as Hc _. subst c. discriminate Ha.
    + rewrite !str_app_cons in H. injection H as Hc H. subst c'.
      cbn [dash_free] in Ha, Hb.
      apply andb_true_iff in Ha as [_ Ha]. apply andb_true_iff in Hb as [_ Hb].
      destruct (IH b Ha Hb H) as [-> ->]. now split.
Qed.

End StoragePaths.

(** X22. Two uploads of files named without path separators are stored
    at the same path exactly when they carry the same file name and arrive
    at the same clock reading: the time stamp in front of the name keeps
    every other pair apart, also when the names themselves contain dashes
    or digits. *)
Theorem upload_paths_distinct storageDir f1 f2 w1 w2
    (H1 : 0 <= clock w1) (H2 : 0 <= clock w2)
    (Hn1 : separator_free (Upload.file_name f1) = true)
    (Hn2 : separator_free (Upload.file_name f2) = true) :
  Upload.storagePath_of storageDir f1 w1 = Upload.storagePath_of storageDir f2 w2 <->
  clock w1 = clock w2 /\ Upload.file_name f1 = Upload.file_name f2.
Proof.
  unfold Upload.storagePath_of, Upload.join. split.
  - intros H. apply str_app_inv_head in H. apply (str_app_inv_head "/") in H.
    apply split_at_dash in H as [Ht Hn]; try now apply of_Z_dash_free.
    split; [now apply of_Z_inj | exact Hn].
  - intros [-> ->]. reflexivity.
Qed.

(** X23. [transaction] is all or nothing for a callback that issues no
    transaction statement of its own: started outside a transaction, it
    commits what the callback wrote when the callback returns, and when
    the callback throws it restores the table as it was and re-raises the
    same error. *)
Theorem transaction_all_or_nothing (T : Type)
    (callback : MetadataModel.Db -> Res Thrown T * MetadataModel.Db) d
    (Hp : MetadataModel.pending d = None)
    (Hcb : forall d1, MetadataModel.pending (callback d1).2 = MetadataModel.pending d1) :
  let begun := {| MetadataModel.live := MetadataModel.live d;
                  MetadataModel.pending := Some (MetadataModel.live d) |} in
  DbConnection.transaction callback d =
  match (callback begun).1 with
  | Ok result =>
      (Ok result, {| MetadataModel.live := MetadataModel.live (callback begun).2;
                     MetadataModel.pending := None |})
  | Throw e => (Throw e, d)
  end.
Proof.
  intros begun. unfold DbConnection.transaction, MetadataModel.exec at 1. rewrite Hp.
  fold begun. pose proof (Hcb begun) as Hb.
  destruct (callback begun) as [[result|e] d2]; cbn [fst snd] in *;
    unfold MetadataModel.exec; rewrite Hb; cbn [MetadataModel.pending begun].
  - reflexivity.
  - destruct d as [t pend]. cbn in *. now subst pend.
Qed.

(** X24. [create] cannot be run inside [transaction]: it opens a
    transaction of its own, which fails, and its [catch] clause rolls the
    outer one back; the helper's own rollback then finds no transaction
    and throws that instead. The call always ends in that error and the
    table is left as it was. *)
Theorem create_inside_transaction n now d (Hp : MetadataModel.pending d = None) :
  DbConnection.transaction (MetadataModel.create n now) d
  = (Throw (ErrorObj "cannot rollback - no transaction is active"), d).
Proof.
  destruct d as [t pend]. cbn in Hp. subst pend. reflexivity.
Qed.

(** ** Runs of the properties above on sample data *)

Lemma consistent_registered : MetadataModel.consistent Sample.registered.
Proof.
  apply (create_consistent Sample.registration 1007 MetadataModel.empty).
  unfold MetadataModel.consistent; simpl. repeat split; constructor.
Qed.

Lemma update_applies_supplied_members_witness :
  (MetadataQueries.update 1 Scenario.rename 2000 Sample.registered).1
  = Some Scenario.renamed_row.
Proof.
  refine (proj1 (update_applies_supplied_members 1 Scenario.rename 2000 Sample.registered
                   Scenario.registered_row Scenario.renamed_row _ _ _ _ _)).
  - unfold MetadataQueries.unique_ids. simpl. apply NoDup_singleton.
  - reflexivity.
  - reflexivity.
  - reflexivity.
  - reflexivity.
Defined.

Lemma delete_removes_record_witness :
  MetadataModel.findById 1 (MetadataQueries.delete 1 Sample.registered).2 = None /\
  (MetadataQueries.delete 1 Sample.registered).1 = true.
Proof.
  pose proof (delete_removes_record 1 Sample.registered consistent_registered) as H.
  cbv zeta in H. destruct H as (H1 & H2 & _). split; [exact H1|].
  rewrite H2. reflexivity.
Defined.

Lemma all_preferences_agree_witness :
  AppDbQueries.getAllPreferences (AppDb.setPreference "theme" "dark" 20 Scenario.preferences)
    !! "theme" = Some "dark".
Proof.
  refine (proj2 (all_preferences_agree Scenario.preferences "theme" "dark" 20 _)).
  unfold AppDb.unique_keys. simpl. apply NoDup_singleton.
Defined.

Lemma upsert_keeps_rows_advances_counter_witness :
  AppDb.database_metadata
    (AppDb.updateDatabaseMetadata Sample.upsert_input 20
       (AppDb.updateDatabaseMetadata Sample.upsert_input 20 Scenario.catalog))
  = AppDb.database_metadata
      (AppDb.updateDatabaseMetadata Sample.upsert_input 20 Scenario.catalog) /\
  AppDb.database_metadata_seq
    (AppDb.updateDatabaseMetadata Sample.upsert_input 20
       (AppDb.updateDatabaseMetadata Sample.upsert_input 20 Scenario.catalog))
  = AppDb.database_metadata_seq Scenario.catalog + 2.
Proof.
  assert (Hu : AppDb.unique_paths Scenario.catalog).
  { unfold AppDb.unique_paths. simpl. apply NoDup_singleton. }
  pose proof (upsert_keeps_rows_advances_counter Sample.upsert_input 20 Scenario.catalog Hu) as H.
  cbv zeta in H. split; [exact (proj1 (proj2 H)) | exact (proj2 (proj2 (proj2 (proj2 (proj2 H)))))].
Defined.

Lemma recent_queries_newest_first_witness :
  head (AppDbQueries.getRecentQueries None
          (AppDbQueries.addQueryToHistory Scenario.ran 200 Scenario.earlier).2)
  = Some (AppDbQueries.addQueryToHistory Scenario.ran 200 Scenario.earlier).1.
Proof.
  assert (Hnew : Forall (fun x => AppDbQueries.h_executed_at x < 200)
                   (AppDbQueries.history_rows Scenario.earlier)).
  { simpl. constructor; [simpl; lia | constructor]. }
  assert (Hlim : 1 <= default 50 (None : option Z)) by (simpl; lia).
  pose proof (recent_queries_newest_first Scenario.ran 200 None Scenario.earlier Hnew Hlim) as H.
  cbv zeta in H. exact (proj2 (proj2 (proj2 (proj2 (proj2 (proj2 H)))))).
Defined.

Lemma recent_list_stays_tidy_witness :
  DatabaseStore.tidy Scenario.recent /\
  DatabaseStore.tidy (DatabaseStore.addDatabase Scenario.second "2024-01-02T00:00:00.000Z"
                        Scenario.recent).2.
Proof.
  assert (Ht : DatabaseStore.tidy Scenario.recent).
  { unfold DatabaseStore.tidy, DatabaseStore.MAX_RECENT_DBS. simpl.
    split; [lia | apply NoDup_singleton]. }
  split; [exact Ht|].
  exact (proj1 (recent_list_stays_tidy Scenario.second "/data/a.db"
                  "2024-01-02T00:00:00.000Z" Scenario.recent Ht)).
Defined.

Lemma test_database_only_once_witness :
  status (Server.createTest 10 Sample.registered).1 = 200 /\
  status (Server.createTest 20 (Server.createTest 10 Sample.registered).2).1 = 500.
Proof.
  pose proof (test_database_only_once 10 20 Sample.registered consistent_registered) as H.
  cbv zeta in H. destruct H as (H1 & _ & H2 & _). split; [|exact H2].
  rewrite H1. reflexivity.
Defined.

Lemma upload_paths_distinct_witness :
  Upload.storagePath_of Sample.storageDir Sample.db_named Sample.world
  <> Upload.storagePath_of Sample.storageDir Sample.db_named Scenario.later.
Proof.
  intros H.
  assert (H1 : 0 <= clock Sample.world) by (simpl; lia).
  assert (H2 : 0 <= clock Scenario.later) by (simpl; lia).
  apply (upload_paths_distinct Sample.storageDir Sample.db_named Sample.db_named
           Sample.world Scenario.later H1 H2 eq_refl eq_refl) in H.
  destruct H as [H _]. discriminate H.
Defined.

Lemma transaction_all_or_nothing_witness :
  DbConnection.transaction Scenario.insert_then_fail MetadataModel.empty
  = (Throw (ErrorObj "boom"), MetadataModel.empty).
Proof.
  refine (transaction_all_or_nothing Z Scenario.insert_then_fail MetadataModel.empty
            eq_refl _).
  intros d1. unfold Scenario.insert_then_fail, MetadataModel.insert. cbn [snd].
  destruct (MetadataModel.has_path _ _); reflexivity.
Defined.

Lemma create_inside_transaction_witness :
  DbConnection.transaction (MetadataModel.create Sample.registration_again 2000)
    Sample.registered
  = (Throw (ErrorObj "cannot rollback - no transaction is active"), Sample.registered).
Proof. exact (create_inside_transaction Sample.registration_again 2000 Sample.registered eq_refl). Defined.
